(** * Loan EMI system: the amortization and underwriting core

    A shallow embedding of [models.py] (LOAN_CRITERIA, LoanCalculator,
    LoanValidator) and of the routes of [app.py] that use them, together
    with the properties the specification states about them.

    Number model.  Python's [float] values are embedded as exact rationals
    ([Q], compared with [==]): the operations [+ - * /], [math.pow] with an
    integer exponent and [round(x, k)] are the mathematical ones.  What the
    interpreter raises on exact values is kept: a float division by zero
    raises [ZeroDivisionError] and [math.pow(0, negative)] raises
    [ValueError].  The binary64 rounding of the interpreter, its infinities
    and NaN, and the [OverflowError] of [math.pow] and of the conversion of
    a large [int] are not modelled: on some inputs the source raises, or
    returns a number that differs in its last digits, where the embedding
    returns a value.  Where a property depends on such a computation, it is
    stated by cases on the result of [calculate_emi] and relates the
    returned values by the operations and the comparisons the source
    applies to them.  That [calculate_emi] raises is stated only at a rate
    of 0 and at a term of 0, where the float computation is exact, and
    nothing is stated about the arguments for which it returns.

    Dates are integers and are modelled exactly, the range of [datetime]
    (years 1 to 9999) and its [OverflowError] included. *)

From Stdlib Require Import ZArith QArith Qround Qabs Qpower Lqa Lia.
From stdpp Require Import base option list list_numbers sorting strings gmap.

Open Scope Q_scope.

(** ** Exceptions and fallible computations *)

Inductive exn : Type :=
  | ZeroDivisionError
  | ValueError
  | OverflowError.

Inductive result (A : Type) : Type :=
  | Ok (a : A)
  | Raise (e : exn).
Arguments Ok {A} a.
Arguments Raise {A} e.

#[global] Instance result_ret : MRet result := @Ok.
#[global] Instance result_bind : MBind result := fun A B k m =>
  match m with
  | Ok a => k a
  | Raise e => Raise e
  end.

(** ** Python arithmetic on exact values *)

Module Py.

(** [a / b] on floats. *)
Definition div (a b : Q) : result Q :=
  if Qeq_bool b 0 then Raise ZeroDivisionError else Ok (a / b).

(** [math.pow(x, n)] for an integer [n]. *)
Definition pow (x : Q) (n : Z) : result Q :=
  if Qeq_bool x 0 && (n <? 0)%Z then Raise ValueError else Ok (x ^ n).

(** Nearest integer, ties to the even one. *)
Definition round_half_even (x : Q) : Z :=
  let f := Qfloor x in
  let frac := x - inject_Z f in
  match Qcompare frac (1 # 2) with
  | Lt => f
  | Gt => (f + 1)%Z
  | Eq => if Z.even f then f else (f + 1)%Z
  end.

(** [round(x, ndigits)] for [ndigits >= 0]. *)
Definition round (x : Q) (ndigits : Z) : Q :=
  inject_Z (round_half_even (x * inject_Z (10 ^ ndigits)))
    / inject_Z (10 ^ ndigits).

End Py.

(** ** [datetime] values

    A [datetime] is a day of the proleptic Gregorian calendar, numbered as
    [date.toordinal] does (day 1 is 0001-01-01, day 3652059 is 9999-12-31),
    and a time of day in microseconds.  The calendar fields follow
    [_ord2ymd] of the standard library. *)

Module Datetime.

Record t : Type := mk {
  ordinal : Z;
  microsecond_of_day : Z
}.

Definition DI400Y : Z := 146097.
Definition DI100Y : Z := 36524.
Definition DI4Y : Z := 1461.

Definition DAYS_IN_MONTH (month : Z) : Z :=
  nth (Z.to_nat month) [-1; 31; 28; 31; 30; 31; 30; 31; 31; 30; 31; 30; 31]%Z 0%Z.

Definition DAYS_BEFORE_MONTH (month : Z) : Z :=
  nth (Z.to_nat month)
    [-1; 0; 31; 59; 90; 120; 151; 181; 212; 243; 273; 304; 334]%Z 0%Z.

Definition ord2ymd (n0 : Z) : Z * Z * Z :=
  let n := (n0 - 1)%Z in
  let n400 := (n / DI400Y)%Z in
  let n := (n mod DI400Y)%Z in
  let year := (n400 * 400 + 1)%Z in
  let n100 := (n / DI100Y)%Z in
  let n := (n mod DI100Y)%Z in
  let n4 := (n / DI4Y)%Z in
  let n := (n mod DI4Y)%Z in
  let n1 := (n / 365)%Z in
  let n := (n mod 365)%Z in
  let year := (year + (n100 * 100 + n4 * 4 + n1))%Z in
  if (n1 =? 4)%Z || (n100 =? 4)%Z then ((year - 1)%Z, 12%Z, 31%Z)
  else
    let leapyear := (n1 =? 3)%Z && (negb (n4 =? 24)%Z || (n100 =? 3)%Z) in
    let month := Z.shiftr (n + 50) 5 in
    let preceding :=
      (DAYS_BEFORE_MONTH month
       + (if (2 <? month)%Z && leapyear then 1 else 0))%Z in
    if (n <? preceding)%Z then
      let month := (month - 1)%Z in
      let preceding :=
        (preceding
         - (DAYS_IN_MONTH month
            + (if (month =? 2)%Z && leapyear then 1 else 0)))%Z in
      (year, month, (n - preceding + 1)%Z)
    else (year, month, (n - preceding + 1)%Z).

Definition year (d : t) : Z := (ord2ymd (ordinal d)).1.1.
Definition month (d : t) : Z := (ord2ymd (ordinal d)).1.2.
Definition day (d : t) : Z := (ord2ymd (ordinal d)).2.

(** [date.max.toordinal()] *)
Definition MAXORDINAL : Z := 3652059.

(** The largest number of days a [timedelta] holds. *)
Definition MAX_DELTA_DAYS : Z := 999999999.

(** [d + timedelta(days=k)]: [timedelta] refuses more than
    [MAX_DELTA_DAYS] days, and the sum refuses a day outside years 1 to
    9999, both with [OverflowError]. *)
Definition add_days (d : t) (k : Z) : result t :=
  if (Z.abs k <=? MAX_DELTA_DAYS)%Z
     && (1 <=? ordinal d + k)%Z && (ordinal d + k <=? MAXORDINAL)%Z
  then Ok (mk (ordinal d + k)%Z (microsecond_of_day d))
  else Raise OverflowError.

Definition US_PER_DAY : Z := 86400000000.

(** [(a - b).days]: the difference is normalised so that its remainder
    of microseconds is non-negative. *)
Definition diff_days (a b : t) : Z :=
  (((ordinal a - ordinal b) * US_PER_DAY
    + (microsecond_of_day a - microsecond_of_day b)) / US_PER_DAY)%Z.

End Datetime.

(** ** LoanCalculator *)

Module LoanCalculator.

Definition monthly_rate_of (annual_rate : Q) : Q := annual_rate / 12 / 100.

(** [calculate_emi(principal, annual_rate, tenure_months)] *)
Definition calculate_emi (principal annual_rate : Q) (tenure_months : Z)
    : result Q :=
  let monthly_rate := monthly_rate_of annual_rate in
  p1 ← Py.pow (1 + monthly_rate) tenure_months;
  p2 ← Py.pow (1 + monthly_rate) tenure_months;
  emi ← Py.div (principal * monthly_rate * p1) (p2 - 1);
  Ok (Py.round emi 2).

(** One dictionary of the list [generate_emi_schedule] returns. *)
Record entry : Type := mk_entry {
  emi_number : Z;
  due_date : Datetime.t;
  emi_amount : Q;
  principal_component : Q;
  interest_component : Q;
  remaining_principal : Q
}.

(** The variables the loop of [generate_emi_schedule] assigns. *)
Record loop_state : Type := mk_state {
  st_emi_amount : Q;
  st_remaining_principal : Q;
  st_schedule : list entry
}.

(** The body of [for i in range(1, loan_term + 1)]. *)
Definition schedule_step (monthly_rate : Q) (loan_term : Z)
    (start_date : Datetime.t) (st : loop_state) (i : Z) : result loop_state :=
  let interest_component := st_remaining_principal st * monthly_rate in
  let principal_component := st_emi_amount st - interest_component in
  let principal_component :=
    if (i =? loan_term)%Z then st_remaining_principal st
    else principal_component in
  let emi_amount :=
    if (i =? loan_term)%Z then principal_component + interest_component
    else st_emi_amount st in
  due_date ← Datetime.add_days start_date (30 * i);
  let schedule :=
    st_schedule st ++
    [ {| emi_number := i;
         due_date := due_date;
         emi_amount := Py.round emi_amount 2;
         principal_component := Py.round principal_component 2;
         interest_component := Py.round interest_component 2;
         remaining_principal :=
           Py.round (st_remaining_principal st - principal_component) 2 |} ] in
  Ok {| st_emi_amount := emi_amount;
        st_remaining_principal := st_remaining_principal st - principal_component;
        st_schedule := schedule |}.

(** [range(1, loan_term + 1)] *)
Definition months (loan_term : Z) : list Z := seqZ 1 loan_term.

(** [for x in l: body], on the variables [st]; an exception ends the loop. *)
Fixpoint for_each {S A : Type} (body : S -> A -> result S) (l : list A)
    (st : S) : result S :=
  match l with
  | [] => Ok st
  | x :: l =>
      st ← body st x;
      for_each body l st
  end.

Definition schedule_loop (monthly_rate : Q) (loan_term : Z)
    (start_date : Datetime.t) (init : loop_state) : result loop_state :=
  for_each (schedule_step monthly_rate loan_term start_date)
    (months loan_term) init.

(** [generate_emi_schedule(loan_amount, interest_rate, loan_term, start_date)] *)
Definition generate_emi_schedule (loan_amount interest_rate : Q)
    (loan_term : Z) (start_date : Datetime.t) : result (list entry) :=
  emi_amount ← calculate_emi loan_amount interest_rate loan_term;
  let monthly_rate := monthly_rate_of interest_rate in
  final ←
    schedule_loop monthly_rate loan_term start_date
      {| st_emi_amount := emi_amount;
         st_remaining_principal := loan_amount;
         st_schedule := [] |};
  Ok (st_schedule final).

(** [calculate_total_interest(loan_amount, interest_rate, loan_term)] *)
Definition calculate_total_interest (loan_amount interest_rate : Q)
    (loan_term : Z) : result Q :=
  emi ← calculate_emi loan_amount interest_rate loan_term;
  let total_payment := emi * inject_Z loan_term in
  Ok (Py.round (total_payment - loan_amount) 2).

End LoanCalculator.

(** ** LOAN_CRITERIA *)

Record criteria : Type := mk_criteria {
  min_age : Q;
  max_age_maturity : Q;
  min_income : Q;
  min_employment_years : Q;
  min_credit_score : Q;
  max_dti_ratio : Q;
  min_interest_rate : Q;
  max_loan_to_income : Q
}.

Definition personal_loan : criteria :=
  {| min_age := 21; max_age_maturity := 65; min_income := 300000;
     min_employment_years := 1; min_credit_score := 650;
     max_dti_ratio := 40; min_interest_rate := 10.5;
     max_loan_to_income := 5 |}.

Definition home_loan : criteria :=
  {| min_age := 21; max_age_maturity := 70; min_income := 600000;
     min_employment_years := 2; min_credit_score := 700;
     max_dti_ratio := 35; min_interest_rate := 8.5;
     max_loan_to_income := 6 |}.

Definition car_loan : criteria :=
  {| min_age := 21; max_age_maturity := 65; min_income := 400000;
     min_employment_years := 1; min_credit_score := 600;
     max_dti_ratio := 45; min_interest_rate := 7.5;
     max_loan_to_income := 5 |}.

Definition education_loan : criteria :=
  {| min_age := 18; max_age_maturity := 35; min_income := 0;
     min_employment_years := 0; min_credit_score := 550;
     max_dti_ratio := 0; min_interest_rate := 8.0;
     max_loan_to_income := 10 |}.

Definition business_loan : criteria :=
  {| min_age := 25; max_age_maturity := 65; min_income := 800000;
     min_employment_years := 3; min_credit_score := 720;
     max_dti_ratio := 30; min_interest_rate := 11.0;
     max_loan_to_income := 4 |}.

Definition LOAN_CRITERIA : gmap string criteria :=
  <["Personal Loan" := personal_loan]>
  (<["Home Loan" := home_loan]>
  (<["Car Loan" := car_loan]>
  (<["Education Loan" := education_loan]>
  (<["Business Loan" := business_loan]> ∅)))).

(** ** The [User] row, as far as the validator reads it

    The numeric columns are taken to hold numbers; the two dates may be
    [None]. *)

Record User : Type := mk_user {
  annual_income : Q;
  credit_score : Z;
  date_of_birth : option Datetime.t;
  employment_start_date : option Datetime.t;
  existing_emis : Q
}.

(** A float that may be [float('inf')]. *)
Inductive xfloat : Type :=
  | Finite (q : Q)
  | Infinity.

(** [a < b] and [a > b] on numbers. *)
Definition Qltb (a b : Q) : bool := negb (Qle_bool b a).
Definition Qgtb (a b : Q) : bool := Qltb b a.

(** [x > b] for a finite [b]. *)
Definition xgtb (x : xfloat) (b : Q) : bool :=
  match x with
  | Finite q => Qgtb q b
  | Infinity => true
  end.

(** ** LoanValidator *)

Module LoanValidator.

(** The reasons [validate_loan_application] appends.  Each constructor
    stands for one of its f-strings and carries the values formatted
    into it. *)
Inductive issue : Type :=
  | MinimumAge (min_age : Q)
  | MaximumAgeAtMaturity (max_age_maturity : Q)
  | MinimumAnnualIncome (min_income : Q)
  | MinimumEmploymentYears (min_employment_years : Q)
  | MinimumCreditScore (min_credit_score : Q)
  | MaximumDti (max_dti_ratio dti_ratio : Q)
  | MinimumInterestRate (min_interest_rate : Q)
  | MaximumLoanToIncome (max_loan_to_income : Q).

(** The dictionary returned next to the issues. *)
Record calculations : Type := mk_calculations {
  age : Z;
  employment_years : Q;
  dti_ratio : Q;
  loan_to_income : xfloat;
  age_at_maturity : Q
}.

(** [calculate_age(birth_date)]; [today] is [datetime.today()]. *)
Definition calculate_age (today : Datetime.t) (birth_date : option Datetime.t)
    : Z :=
  match birth_date with
  | None => 0%Z
  | Some birth_date =>
      let before :=
        (Datetime.month today <? Datetime.month birth_date)%Z
        || ((Datetime.month today =? Datetime.month birth_date)%Z
            && (Datetime.day today <? Datetime.day birth_date)%Z) in
      (Datetime.year today - Datetime.year birth_date
       - (if before then 1 else 0))%Z
  end.

(** [calculate_employment_years(employment_start_date)] *)
Definition calculate_employment_years (today : Datetime.t)
    (employment_start_date : option Datetime.t) : Q :=
  match employment_start_date with
  | None => 0
  | Some employment_start_date =>
      let employment_duration :=
        inject_Z (Datetime.diff_days today employment_start_date) / 365.25 in
      Py.round employment_duration 1
  end.

(** [calculate_dti_ratio(user, new_loan_emi)] *)
Definition calculate_dti_ratio (user : User) (new_loan_emi : Q) : result Q :=
  let monthly_income := annual_income user / 12 in
  let total_monthly_debt := existing_emis user + new_loan_emi in
  if Qeq_bool monthly_income 0 then Ok 100
  else
    ratio ← Py.div total_monthly_debt monthly_income;
    Ok (ratio * 100).

(** [loan_amount / user.annual_income if user.annual_income > 0
     else float('inf')] *)
Definition loan_to_income_of (user : User) (loan_amount : Q) : result xfloat :=
  if Qgtb (annual_income user) 0 then
    ratio ← Py.div loan_amount (annual_income user);
    Ok (Finite ratio)
  else Ok Infinity.

(** [LOAN_CRITERIA.get(loan_type, LOAN_CRITERIA['Personal Loan'])] *)
Definition criteria_for (loan_type : string) : criteria :=
  default personal_loan (LOAN_CRITERIA !! loan_type).

(** The conditions of the eight [if] statements, in source order. *)
Definition fails_min_age (c : criteria) (m : calculations) : bool :=
  Qltb (inject_Z (age m)) (min_age c).
Definition fails_max_age_maturity (c : criteria) (m : calculations) : bool :=
  Qgtb (age_at_maturity m) (max_age_maturity c).
Definition fails_min_income (c : criteria) (user : User) : bool :=
  Qltb (annual_income user) (min_income c).
Definition fails_min_employment (c : criteria) (m : calculations) : bool :=
  Qltb (employment_years m) (min_employment_years c).
Definition fails_min_credit_score (c : criteria) (user : User) : bool :=
  Qltb (inject_Z (credit_score user)) (min_credit_score c).
Definition fails_max_dti (c : criteria) (m : calculations) : bool :=
  Qgtb (dti_ratio m) (max_dti_ratio c).
Definition fails_min_interest_rate (c : criteria) (interest_rate : Q) : bool :=
  Qltb interest_rate (min_interest_rate c).
Definition fails_max_loan_to_income (c : criteria) (m : calculations) : bool :=
  xgtb (loan_to_income m) (max_loan_to_income c).

(** [if cond: issues.append(x)] *)
Definition append_if (cond : bool) (x : issue) (issues : list issue)
    : list issue :=
  if cond then issues ++ [x] else issues.

(** The eight checks over values already computed. *)
Definition run_checks (c : criteria) (user : User) (interest_rate : Q)
    (m : calculations) : list issue :=
  let issues := [] in
  let issues :=
    append_if (fails_min_age c m) (MinimumAge (min_age c)) issues in
  let issues :=
    append_if (fails_max_age_maturity c m)
      (MaximumAgeAtMaturity (max_age_maturity c)) issues in
  let issues :=
    append_if (fails_min_income c user)
      (MinimumAnnualIncome (min_income c)) issues in
  let issues :=
    append_if (fails_min_employment c m)
      (MinimumEmploymentYears (min_employment_years c)) issues in
  let issues :=
    append_if (fails_min_credit_score c user)
      (MinimumCreditScore (min_credit_score c)) issues in
  let issues :=
    append_if (fails_max_dti c m)
      (MaximumDti (max_dti_ratio c) (dti_ratio m)) issues in
  let issues :=
    append_if (fails_min_interest_rate c interest_rate)
      (MinimumInterestRate (min_interest_rate c)) issues in
  let issues :=
    append_if (fails_max_loan_to_income c m)
      (MaximumLoanToIncome (max_loan_to_income c)) issues in
  issues.

(** [validate_loan_application(user, loan_amount, interest_rate, loan_term,
    loan_type)]; [today] is the value of [datetime.today()], which the two
    helpers read one after the other and which is taken to be the same in
    both. *)
Definition validate_loan_application (today : Datetime.t) (user : User)
    (loan_amount interest_rate : Q) (loan_term : Z) (loan_type : string)
    : result (list issue * calculations) :=
  let criteria := criteria_for loan_type in
  let age := calculate_age today (date_of_birth user) in
  let employment_years :=
    calculate_employment_years today (employment_start_date user) in
  new_loan_emi ←
    LoanCalculator.calculate_emi loan_amount interest_rate loan_term;
  dti_ratio ← calculate_dti_ratio user new_loan_emi;
  loan_to_income ← loan_to_income_of user loan_amount;
  let age_at_maturity := inject_Z age + inject_Z loan_term / 12 in
  let m :=
    {| age := age;
       employment_years := employment_years;
       dti_ratio := dti_ratio;
       loan_to_income := loan_to_income;
       age_at_maturity := age_at_maturity |} in
  Ok (run_checks criteria user interest_rate m, m).

End LoanValidator.

(** ** The decision of [apply_loan] *)

(** The values of [Loan.status]: Pending, Approved, Rejected. *)
Inductive loan_status : Type :=
  | Pending
  | Approved
  | Rejected.

Record Loan : Type := mk_loan {
  loan_amount : Q;
  interest_rate : Q;
  loan_term : Z;
  loan_type : string;
  status : loan_status;
  rejection_reason : option (list LoanValidator.issue)
}.

(** The POST branch of [apply_loan] up to the construction of [new_loan];
    [rejection_reason] keeps the issues that the source joins with [' | ']. *)
Definition apply_loan (today : Datetime.t) (current_user : User)
    (loan_amount interest_rate : Q) (loan_term : Z) (loan_type : string)
    : result Loan :=
  '(issues, calculations) ←
    LoanValidator.validate_loan_application today current_user
      loan_amount interest_rate loan_term loan_type;
  let '(status, rejection_reason) :=
    match issues with
    | _ :: _ => (Rejected, Some issues)
    | [] => (Pending, None)
    end in
  Ok {| loan_amount := loan_amount;
        interest_rate := interest_rate;
        loan_term := loan_term;
        loan_type := loan_type;
        status := status;
        rejection_reason := rejection_reason |}.

(** * Vocabulary of the properties *)

Definition raised {A : Type} (m : result A) : bool :=
  match m with
  | Raise _ => true
  | Ok _ => false
  end.


(** [sum(...)] over numbers. *)
Definition sumQ (l : list Q) : Q := fold_right Qplus 0 l.

Module ScheduleTerms.
Import LoanCalculator.


(** The day 30 * [i] days after [start_date], at the same time of day. *)
Definition due_date_of (start_date : Datetime.t) (i : Z) : Datetime.t :=
  Datetime.mk (Datetime.ordinal start_date + 30 * i)
    (Datetime.microsecond_of_day start_date).

(** The due dates of the installments 1 to [loan_term] are all in the range
    of [datetime]. *)
Definition due_dates_ok (start_date : Datetime.t) (loan_term : Z) : bool :=
  forallb (fun i => negb (raised (Datetime.add_days start_date (30 * i))))
    (months loan_term).

(** The balance outstanding after [k] regular installments of [emi]: the
    value of [remaining_principal] after [k] iterations before the last. *)
Fixpoint balance_after (emi monthly_rate loan_amount : Q) (k : nat) : Q :=
  match k with
  | O => loan_amount
  | S k =>
      let remaining_principal :=
        balance_after emi monthly_rate loan_amount k in
      let interest_component := remaining_principal * monthly_rate in
      let principal_component := emi - interest_component in
      remaining_principal - principal_component
  end.

(** The entry appended by an iteration [i] before the last one, when
    [balance] is outstanding and the installment is [emi]. *)
Definition regular_entry (emi monthly_rate : Q) (start_date : Datetime.t)
    (i : Z) (balance : Q) : entry :=
  let interest_component := balance * monthly_rate in
  let principal_component := emi - interest_component in
  {| emi_number := i;
     due_date := due_date_of start_date i;
     emi_amount := Py.round emi 2;
     principal_component := Py.round principal_component 2;
     interest_component := Py.round interest_component 2;
     remaining_principal := Py.round (balance - principal_component) 2 |}.

(** The entry appended by the last iteration when [balance] is outstanding:
    the whole balance is the principal component. *)
Definition final_entry (monthly_rate : Q) (loan_term : Z)
    (start_date : Datetime.t) (balance : Q) : entry :=
  let interest_component := balance * monthly_rate in
  {| emi_number := loan_term;
     due_date := due_date_of start_date loan_term;
     emi_amount := Py.round (balance + interest_component) 2;
     principal_component := Py.round balance 2;
     interest_component := Py.round interest_component 2;
     remaining_principal := Py.round (balance - balance) 2 |}.

(** Entry number [k + 1] of the schedule for an installment [emi]: the final
    entry when it is the last one, a regular entry otherwise, on the balance
    the [k] entries before it leave. *)
Definition entry_of (emi loan_amount monthly_rate : Q) (loan_term : Z)
    (start_date : Datetime.t) (k : nat) : entry :=
  let i := (Z.of_nat k + 1)%Z in
  let balance := balance_after emi monthly_rate loan_amount k in
  if (i =? loan_term)%Z
  then final_entry monthly_rate i start_date balance
  else regular_entry emi monthly_rate start_date i balance.

(** The schedule for an installment [emi]. *)
Definition schedule_of (emi loan_amount monthly_rate : Q) (loan_term : Z)
    (start_date : Datetime.t) : list entry :=
  map (entry_of emi loan_amount monthly_rate loan_term start_date)
    (seq 0 (Z.to_nat loan_term)).

End ScheduleTerms.

Module ValidatorTerms.
Import LoanValidator.

(** The value [calculate_dti_ratio] returns. *)
Definition dti_value (user : User) (new_loan_emi : Q) : Q :=
  if Qeq_bool (annual_income user / 12) 0 then 100
  else (existing_emis user + new_loan_emi) / (annual_income user / 12) * 100.

(** The value of the loan-to-income expression. *)
Definition lti_value (user : User) (loan_amount : Q) : xfloat :=
  if Qgtb (annual_income user) 0 then Finite (loan_amount / annual_income user)
  else Infinity.

(** The dictionary of calculations for an installment [new_loan_emi]. *)
Definition metrics (today : Datetime.t) (user : User) (loan_amount : Q)
    (loan_term : Z) (new_loan_emi : Q) : calculations :=
  {| age := calculate_age today (date_of_birth user);
     employment_years :=
       calculate_employment_years today (employment_start_date user);
     dti_ratio := dti_value user new_loan_emi;
     loan_to_income := lti_value user loan_amount;
     age_at_maturity :=
       inject_Z (calculate_age today (date_of_birth user))
       + inject_Z loan_term / 12 |}.

(** The eight checks as a table: condition and reason. *)
Definition checks (c : criteria) (user : User) (interest_rate : Q)
    (m : calculations) : list (bool * issue) :=
  [ (fails_min_age c m, MinimumAge (min_age c));
    (fails_max_age_maturity c m, MaximumAgeAtMaturity (max_age_maturity c));
    (fails_min_income c user, MinimumAnnualIncome (min_income c));
    (fails_min_employment c m,
     MinimumEmploymentYears (min_employment_years c));
    (fails_min_credit_score c user, MinimumCreditScore (min_credit_score c));
    (fails_max_dti c m, MaximumDti (max_dti_ratio c) (dti_ratio m));
    (fails_min_interest_rate c interest_rate,
     MinimumInterestRate (min_interest_rate c));
    (fails_max_loan_to_income c m,
     MaximumLoanToIncome (max_loan_to_income c)) ].

(** The number of checks whose condition holds. *)
Definition failing_count (c : criteria) (user : User) (interest_rate : Q)
    (m : calculations) : nat :=
  length (List.filter fst (checks c user interest_rate m)).

End ValidatorTerms.

(** Sample inputs. *)
Definition new_year_2026 : Datetime.t := Datetime.mk 739617 0.
Definition born_1996 : Datetime.t := Datetime.mk 728659 0.
Definition hired_2020 : Datetime.t := Datetime.mk 737425 0.

Definition low_income_user : User :=
  {| annual_income := 250000; credit_score := 600;
     date_of_birth := Some born_1996; employment_start_date := None;
     existing_emis := 0 |}.

Definition student : User :=
  {| annual_income := 120000; credit_score := 700;
     date_of_birth := Some born_1996; employment_start_date := None;
     existing_emis := 0 |}.

Definition no_income_user : User :=
  {| annual_income := 0; credit_score := 700;
     date_of_birth := Some born_1996;
     employment_start_date := Some hired_2020;
     existing_emis := 1500 |}.

(** * Vocabulary of the further properties *)

(** The keys of [LOAN_CRITERIA]. *)
Definition loan_types : list string :=
  ["Personal Loan"; "Home Loan"; "Car Loan"; "Education Loan";
   "Business Loan"].

(** No threshold is crossed: each of the eight comparisons of the validator
    is false.  A value equal to its threshold crosses nothing. *)
Definition within_thresholds (c : criteria) (user : User) (interest_rate : Q)
    (m : LoanValidator.calculations) : Prop :=
  ~ inject_Z (LoanValidator.age m) < min_age c
  /\ ~ max_age_maturity c < LoanValidator.age_at_maturity m
  /\ ~ annual_income user < min_income c
  /\ ~ LoanValidator.employment_years m < min_employment_years c
  /\ ~ inject_Z (credit_score user) < min_credit_score c
  /\ ~ max_dti_ratio c < LoanValidator.dti_ratio m
  /\ ~ interest_rate < min_interest_rate c
  /\ match LoanValidator.loan_to_income m with
     | Finite ratio => ~ max_loan_to_income c < ratio
     | Infinity => False
     end.

(** The time of a [datetime] in microseconds since day 0. *)
Definition instant (d : Datetime.t) : Z :=
  (Datetime.ordinal d * Datetime.US_PER_DAY + Datetime.microsecond_of_day d)%Z.

(** * Further code of [app.py]

    The tables are lists of rows in insertion order; a query is a function
    of the table.  Form fields are taken after their conversion by
    [float], [int] and [strptime]. *)

(** ** The [User] table, [register] and [login] *)

(** The columns of [User] that [register] sets; [profile] holds the ones
    the validator reads. *)
Record Account : Type := mk_account {
  username : string;
  email : string;
  password : string;
  employment_status : string;
  profile : User
}.

Record registration_form : Type := mk_form {
  form_username : string;
  form_email : string;
  form_password : string;
  form_annual_income : Q;
  form_employment_status : string;
  form_credit_score : Z;
  form_date_of_birth : Datetime.t;
  form_employment_start_date : option Datetime.t;
  form_existing_emis : Q
}.

(** The message flashed by [register]. *)
Inductive register_outcome : Type :=
  | UsernameExists
  | EmailExists
  | CreditScoreOutOfRange
  | Registered.

(** [User.query.filter_by(username=...).first()] and the same by email. *)
Definition first_by_username (users : list Account) (name : string)
    : option Account :=
  List.find (fun a => String.eqb (username a) name) users.

Definition first_by_email (users : list Account) (address : string)
    : option Account :=
  List.find (fun a => String.eqb (email a) address) users.

Section Accounts.

(** [werkzeug.security]: the hash depends on a random salt. *)
Variable generate_password_hash : string -> string -> string.
Variable check_password_hash : string -> string -> bool.

(** The POST branch of [register]: the outcome and the table afterwards. *)
Definition register (users : list Account) (salt : string)
    (form : registration_form) : register_outcome * list Account :=
  match first_by_username users (form_username form) with
  | Some _ => (UsernameExists, users)
  | None =>
      match first_by_email users (form_email form) with
      | Some _ => (EmailExists, users)
      | None =>
          if (form_credit_score form <? 300)%Z
             || (850 <? form_credit_score form)%Z
          then (CreditScoreOutOfRange, users)
          else
            let hashed_password :=
              generate_password_hash salt (form_password form) in
            let new_user :=
              {| username := form_username form;
                 email := form_email form;
                 password := hashed_password;
                 employment_status := form_employment_status form;
                 profile :=
                   {| annual_income := form_annual_income form;
                      credit_score := form_credit_score form;
                      date_of_birth := Some (form_date_of_birth form);
                      employment_start_date :=
                        form_employment_start_date form;
                      existing_emis := form_existing_emis form |} |} in
            (Registered, users ++ [new_user])
      end
  end.

(** The POST branch of [login]: the user logged in, if any. *)
Definition login (users : list Account) (name pass : string)
    : option Account :=
  match first_by_username users name with
  | Some user =>
      if check_password_hash (password user) pass then Some user else None
  | None => None
  end.

End Accounts.

(** What [register] keeps true of the table. *)
Definition accounts_ok (users : list Account) : Prop :=
  NoDup (map username users)
  /\ NoDup (map email users)
  /\ Forall (fun a => (300 <= credit_score (profile a) <= 850)%Z) users.

(** ** [dashboard] *)

Definition has_status (s : loan_status) (loan : Loan) : bool :=
  match status loan, s with
  | Pending, Pending | Approved, Approved | Rejected, Rejected => true
  | _, _ => false
  end.

Record dashboard_view : Type := mk_dashboard {
  total_loans : nat;
  approved_loans : nat;
  pending_loans : nat;
  rejected_loans : nat;
  total_loan_amount : Q
}.

(** The values [dashboard] passes to its template; [user_loans] is the
    result of the query for the current user. *)
Definition dashboard (user_loans : list Loan) : dashboard_view :=
  {| total_loans := length user_loans;
     approved_loans := length (List.filter (has_status Approved) user_loans);
     pending_loans := length (List.filter (has_status Pending) user_loans);
     rejected_loans := length (List.filter (has_status Rejected) user_loans);
     total_loan_amount :=
       sumQ (map loan_amount (List.filter (has_status Approved) user_loans)) |}.

(** A loan is made by [apply_loan]. *)
Definition made_by_apply_loan (loan : Loan) : Prop :=
  exists (today : Datetime.t) (user : User) (principal annual_rate : Q)
         (term : Z) (type : string),
    apply_loan today user principal annual_rate term type = Ok loan.

(** ** [emi_calculator] and [api_calculate_emi] *)

Record calculator_view : Type := mk_calculator_view {
  view_emi : Q;
  view_total_interest : Q;
  view_total_payment : Q;
  view_schedule : list LoanCalculator.entry
}.

(** The POST branch of [emi_calculator]; [now] is [datetime.now()]. *)
Definition emi_calculator (now : Datetime.t) (loan_amount interest_rate : Q)
    (loan_term : Z) : result calculator_view :=
  emi ← LoanCalculator.calculate_emi loan_amount interest_rate loan_term;
  total_interest ←
    LoanCalculator.calculate_total_interest loan_amount interest_rate
      loan_term;
  let total_payment := loan_amount + total_interest in
  schedule ←
    LoanCalculator.generate_emi_schedule loan_amount interest_rate loan_term
      now;
  Ok {| view_emi := emi;
        view_total_interest := total_interest;
        view_total_payment := total_payment;
        view_schedule := take 12 schedule |}.


(** ** The [Loan] and [EMI] tables and [payment_history] *)

(** A row of [Loan]: the columns [apply_loan] sets and the others read
    here. *)
Module LoanRow.

Record t : Type := mk {
  id : Z;
  user_id : Z;
  loan : Loan;
  start_date : option Datetime.t
}.

End LoanRow.

Inductive emi_status : Type :=
  | EmiPending
  | EmiPaid
  | EmiOverdue.

Module EMI.

Record t : Type := mk {
  loan_id : Z;
  emi_number : Z;
  due_date : Datetime.t;
  amount_due : Q;
  principal_amount : Q;
  interest_amount : Q;
  status : emi_status;
  paid_date : option Datetime.t;
  late_fee : Q
}.

(** [order_by(EMI.emi_number)] *)
Definition by_number (a b : t) : Prop := (emi_number a <= emi_number b)%Z.

#[global] Instance by_number_dec : RelDecision by_number.
Proof. intros a b. unfold by_number. apply _. Defined.

(** [EMI.query.filter_by(loan_id=...).order_by(EMI.emi_number).all()] *)
Definition of_loan (table : list t) (loan : Z) : list t :=
  merge_sort by_number
    (List.filter (fun e => (loan_id e =? loan)%Z) table).

(** The row [payment_history] adds for one entry of the schedule. *)
Definition of_entry (loan : Z) (emi_data : LoanCalculator.entry) : t :=
  {| loan_id := loan;
     emi_number := LoanCalculator.emi_number emi_data;
     due_date := LoanCalculator.due_date emi_data;
     amount_due := LoanCalculator.emi_amount emi_data;
     principal_amount := LoanCalculator.principal_component emi_data;
     interest_amount := LoanCalculator.interest_component emi_data;
     status := EmiPending;
     paid_date := None;
     late_fee := 0 |}.

End EMI.

(** What [payment_history] answers. *)
Inductive history_page : Type :=
  | NotFound
  | AccessDenied
  | PaymentHistory (loan : LoanRow.t) (emis : list EMI.t).

(** [payment_history(loan_id)] for the user [current_user_id]: the answer
    and the [EMI] table afterwards; [now] is [datetime.now()]. *)
Definition payment_history (now : Datetime.t) (current_user_id : Z)
    (loans : list LoanRow.t) (table : list EMI.t) (loan_id : Z)
    : result (history_page * list EMI.t) :=
  match List.find (fun l => (LoanRow.id l =? loan_id)%Z) loans with
  | None => Ok (NotFound, table)
  | Some loan =>
      if negb (LoanRow.user_id loan =? current_user_id)%Z
      then Ok (AccessDenied, table)
      else
        let emis := EMI.of_loan table loan_id in
        match emis, status (LoanRow.loan loan) with
        | [], Approved =>
            schedule ←
              LoanCalculator.generate_emi_schedule
                (loan_amount (LoanRow.loan loan))
                (interest_rate (LoanRow.loan loan))
                (loan_term (LoanRow.loan loan))
                (default now (LoanRow.start_date loan));
            let table := table ++ map (EMI.of_entry loan_id) schedule in
            Ok (PaymentHistory loan (EMI.of_loan table loan_id), table)
        | _, _ => Ok (PaymentHistory loan emis, table)
        end
  end.

(** * Properties *)

(** ** The model on known values *)

Example ord2ymd_epoch : Datetime.ord2ymd 719163 = (1970, 1, 1)%Z.
Proof. reflexivity. Qed.

Example ord2ymd_leap_day : Datetime.ord2ymd 730179 = (2000, 2, 29)%Z.
Proof. reflexivity. Qed.

Example ord2ymd_year_end : Datetime.ord2ymd 730119 = (1999, 12, 31)%Z.
Proof. reflexivity. Qed.

Example age_on_new_year_2026 :
  LoanValidator.calculate_age new_year_2026 (Some born_1996) = 30%Z.
Proof. reflexivity. Qed.

Example age_before_birthday :
  LoanValidator.calculate_age (Datetime.mk 739616 0) (Some born_1996)
  = 29%Z.
Proof. reflexivity. Qed.

Example employment_years_since_2020 :
  Qeq_bool
    (LoanValidator.calculate_employment_years new_year_2026 (Some hired_2020))
    6 = true.
Proof. vm_compute. reflexivity. Qed.

Example round_ties_to_even :
  Qeq_bool (Py.round 0.125 2) 0.12 = true
  /\ Qeq_bool (Py.round 0.375 2) 0.38 = true
  /\ Qeq_bool (Py.round (-0.005) 2) 0 = true.
Proof. vm_compute. repeat split; reflexivity. Qed.

Example emi_500000_at_10_5_percent_over_24_months :
  (emi ← LoanCalculator.calculate_emi 500000 10.5 24;
   Ok (Qeq_bool emi 23188.02)) = Ok true.
Proof. vm_compute. reflexivity. Qed.

(** ** Rounding *)

Section Rounding.

Lemma round_half_even_error (x : Q) :
  - (1 # 2) <= inject_Z (Py.round_half_even x) - x <= 1 # 2.
Proof.
  unfold Py.round_half_even.
  pose proof (Qfloor_le x) as Hlo.
  pose proof (Qlt_floor x) as Hhi.
  rewrite inject_Z_plus in Hhi. change (inject_Z 1) with 1 in Hhi.
  destruct (Qcompare_spec (x - inject_Z (Qfloor x)) (1 # 2)) as [He|Hl|Hg].
  - destruct (Z.even (Qfloor x)).
    + lra.
    + rewrite inject_Z_plus. change (inject_Z 1) with 1. lra.
  - lra.
  - rewrite inject_Z_plus. change (inject_Z 1) with 1. lra.
Qed.

Lemma round_half_even_nonneg (x : Q) :
  0 <= x -> (0 <= Py.round_half_even x)%Z.
Proof.
  intros Hx. unfold Py.round_half_even.
  assert (0 <= Qfloor x)%Z as Hf.
  { change 0%Z with (Qfloor 0). now apply Qfloor_resp_le. }
  destruct (Qcompare _ _); [destruct (Z.even _)|..]; lia.
Qed.

Lemma round_half_even_nonpos (x : Q) :
  x <= 0 -> (Py.round_half_even x <= 0)%Z.
Proof.
  intros Hx.
  pose proof (round_half_even_error x) as [_ Hhi].
  assert (inject_Z (Py.round_half_even x) < 1) as Hlt by lra.
  change 1 with (inject_Z 1) in Hlt. rewrite <- Zlt_Qlt in Hlt. lia.
Qed.

End Rounding.

(** ** Python arithmetic *)

Section PyArith.

Lemma div_ok (a b : Q) : ~ b == 0 -> Py.div a b = Ok (a / b).
Proof.
  intros Hb. unfold Py.div.
  destruct (Qeq_bool b 0) eqn:E; [|reflexivity].
  apply Qeq_bool_iff in E. contradiction.
Qed.

Lemma div_by_zero (a b : Q) : b == 0 -> Py.div a b = Raise ZeroDivisionError.
Proof.
  intros Hb. unfold Py.div.
  apply Qeq_bool_iff in Hb. now rewrite Hb.
Qed.

Lemma pow_ok (x : Q) (n : Z) : ~ x == 0 -> Py.pow x n = Ok (x ^ n).
Proof.
  intros Hx. unfold Py.pow.
  destruct (Qeq_bool x 0) eqn:E; [|reflexivity].
  apply Qeq_bool_iff in E. contradiction.
Qed.

Lemma pow_nonneg_exponent (x : Q) (n : Z) :
  (0 <= n)%Z -> Py.pow x n = Ok (x ^ n).
Proof.
  intros Hn. unfold Py.pow.
  replace (n <? 0)%Z with false by (symmetry; apply Z.ltb_ge; exact Hn).
  now rewrite andb_false_r.
Qed.

End PyArith.

(** ** The installment *)

Module EmiFacts.
Import LoanCalculator.

Lemma calculate_emi_zero_rate (principal : Q) (tenure_months : Z) :
  calculate_emi principal 0 tenure_months = Raise ZeroDivisionError.
Proof.
  unfold calculate_emi.
  assert (1 + monthly_rate_of 0 == 1) as H1 by reflexivity.
  rewrite pow_ok by (rewrite H1; discriminate).
  cbn. rewrite div_by_zero; [reflexivity|].
  rewrite H1, Qpower_1. reflexivity.
Qed.

Lemma calculate_emi_zero_term (principal annual_rate : Q) :
  calculate_emi principal annual_rate 0 = Raise ZeroDivisionError.
Proof.
  unfold calculate_emi.
  rewrite pow_nonneg_exponent by lia.
  cbn. rewrite div_by_zero; reflexivity.
Qed.

End EmiFacts.

(** ** The schedule loop *)

Module ScheduleFacts.
Import LoanCalculator.
Export ScheduleTerms.

Lemma for_each_app {S A : Type} (body : S -> A -> result S)
    (l1 l2 : list A) (st : S) :
  for_each body (l1 ++ l2) st
  = (st' ← for_each body l1 st; for_each body l2 st').
Proof.
  revert st. induction l1 as [|x l1 IH]; intros st; cbn [app for_each].
  - reflexivity.
  - destruct (body st x) as [st'|e]; cbn [mbind result_bind];
      [apply IH|reflexivity].
Qed.

(** [range(1, n + 1)] ends with [n]. *)
Lemma months_split (loan_term : Z) :
  (1 <= loan_term)%Z ->
  months loan_term = seqZ 1 (loan_term - 1) ++ [loan_term].
Proof.
  intros Hn. unfold months.
  replace loan_term with ((loan_term - 1) + 1)%Z at 1 by lia.
  rewrite seqZ_app by lia.
  replace (1 + (loan_term - 1))%Z with loan_term by lia.
  rewrite (seqZ_cons loan_term 1) by lia.
  rewrite (seqZ_nil (Z.succ loan_term)) by lia. reflexivity.
Qed.

(** A due date is 30 days times the number of the installment after the
    start date, or the addition raises [OverflowError]. *)
Lemma add_days_due (start_date : Datetime.t) (i : Z) :
  Datetime.add_days start_date (30 * i)
  = if negb (raised (Datetime.add_days start_date (30 * i)))
    then Ok (due_date_of start_date i)
    else Raise OverflowError.
Proof.
  unfold Datetime.add_days, due_date_of.
  match goal with
  | |- context [if ?c then Ok _ else Raise OverflowError] => destruct c
  end; reflexivity.
Qed.

Section Loop.

Variables (monthly_rate : Q) (loan_term : Z) (start_date : Datetime.t).

Let step := schedule_step monthly_rate loan_term start_date.
Let date_ok (i : Z) : bool :=
  negb (raised (Datetime.add_days start_date (30 * i))).

(** An iteration before the last one. *)
Lemma step_regular (st : loop_state) (i : Z) :
  i <> loan_term -> date_ok i = true ->
  step st i
  = Ok {| st_emi_amount := st_emi_amount st;
          st_remaining_principal :=
            st_remaining_principal st
            - (st_emi_amount st - st_remaining_principal st * monthly_rate);
          st_schedule :=
            st_schedule st
            ++ [regular_entry (st_emi_amount st) monthly_rate start_date i
                  (st_remaining_principal st)] |}.
Proof.
  intros Hi Hd. unfold step, schedule_step.
  apply Z.eqb_neq in Hi. rewrite Hi.
  unfold date_ok in Hd. rewrite add_days_due, Hd. reflexivity.
Qed.

(** The last iteration: the whole balance is repaid. *)
Lemma step_final (st : loop_state) :
  date_ok loan_term = true ->
  step st loan_term
  = Ok {| st_emi_amount :=
            st_remaining_principal st
            + st_remaining_principal st * monthly_rate;
          st_remaining_principal :=
            st_remaining_principal st - st_remaining_principal st;
          st_schedule :=
            st_schedule st
            ++ [final_entry monthly_rate loan_term start_date
                  (st_remaining_principal st)] |}.
Proof.
  intros Hd. unfold step, schedule_step. rewrite Z.eqb_refl.
  unfold date_ok in Hd. rewrite add_days_due, Hd. reflexivity.
Qed.

(** An iteration whose due date is out of range. *)
Lemma step_date_out (st : loop_state) (i : Z) :
  date_ok i = false -> step st i = Raise OverflowError.
Proof.
  intros Hd. unfold step, schedule_step.
  unfold date_ok in Hd. rewrite add_days_due, Hd. reflexivity.
Qed.

Lemma step_date_in (st : loop_state) (i : Z) :
  date_ok i = true -> exists st', step st i = Ok st'.
Proof.
  intros Hd. unfold step, schedule_step.
  unfold date_ok in Hd. rewrite add_days_due, Hd.
  cbn [mbind result_bind]. eexists. reflexivity.
Qed.

(** The loop stops with [OverflowError] at the first due date out of
    range. *)
Lemma loop_date_out (l : list Z) :
  forallb date_ok l = false ->
  forall st, for_each step l st = Raise OverflowError.
Proof.
  induction l as [|i l IH]; cbn [forallb for_each]; [discriminate|].
  intros H st. destruct (date_ok i) eqn:E.
  - destruct (step_date_in st i E) as [st' ->].
    cbn [mbind result_bind]. apply IH. exact H.
  - rewrite (step_date_out st i E). reflexivity.
Qed.

Lemma entry_of_regular (emi loan_amount : Q) (k : nat) :
  (Z.of_nat k + 1)%Z <> loan_term ->
  entry_of emi loan_amount monthly_rate loan_term start_date k
  = regular_entry emi monthly_rate start_date (Z.of_nat k + 1)
      (balance_after emi monthly_rate loan_amount k).
Proof.
  intros H. unfold entry_of. cbv zeta.
  apply Z.eqb_neq in H. now rewrite H.
Qed.

Lemma entry_of_final (emi loan_amount : Q) (k : nat) :
  (Z.of_nat k + 1)%Z = loan_term ->
  entry_of emi loan_amount monthly_rate loan_term start_date k
  = final_entry monthly_rate loan_term start_date
      (balance_after emi monthly_rate loan_amount k).
Proof.
  intros H. unfold entry_of. cbv zeta.
  rewrite H, Z.eqb_refl. reflexivity.
Qed.

(** The first [k] iterations, all before the last one. *)
Lemma regular_iterations (emi loan_amount : Q) (k : nat) :
  (Z.of_nat k < loan_term)%Z ->
  forallb date_ok (seqZ 1 (Z.of_nat k)) = true ->
  for_each step (seqZ 1 (Z.of_nat k))
    {| st_emi_amount := emi;
       st_remaining_principal := loan_amount;
       st_schedule := [] |}
  = Ok {| st_emi_amount := emi;
          st_remaining_principal :=
            balance_after emi monthly_rate loan_amount k;
          st_schedule :=
            map (entry_of emi loan_amount monthly_rate loan_term start_date)
              (seq 0 k) |}.
Proof.
  induction k as [|k IH]; intros Hk Hd.
  - reflexivity.
  - revert Hd. rewrite Nat2Z.inj_succ, <- Z.add_1_r.
    rewrite seqZ_app by lia.
    rewrite (seqZ_cons (1 + Z.of_nat k) 1) by lia.
    rewrite (seqZ_nil (Z.succ (1 + Z.of_nat k))) by lia.
    rewrite forallb_app. cbn [forallb].
    rewrite andb_true_r, andb_true_iff. intros [Hd Hi].
    rewrite for_each_app, IH by (first [lia | exact Hd]).
    cbn [mbind result_bind for_each].
    rewrite step_regular by (first [lia | exact Hi]).
    cbn [mbind result_bind st_emi_amount st_remaining_principal st_schedule].
    rewrite seq_S, map_app. cbn [map Nat.add balance_after].
    rewrite entry_of_regular by lia.
    replace (1 + Z.of_nat k)%Z with (Z.of_nat k + 1)%Z by lia.
    reflexivity.
Qed.

(** The whole loop: the schedule in closed form, or [OverflowError] when a
    due date is out of range. *)
Lemma loop_result (emi loan_amount : Q) :
  (final ←
     schedule_loop monthly_rate loan_term start_date
       {| st_emi_amount := emi;
          st_remaining_principal := loan_amount;
          st_schedule := [] |};
   Ok (st_schedule final))
  = if due_dates_ok start_date loan_term
    then Ok (schedule_of emi loan_amount monthly_rate loan_term start_date)
    else Raise OverflowError.
Proof.
  unfold schedule_loop, due_dates_ok. fold date_ok. fold step.
  destruct (forallb date_ok (months loan_term)) eqn:E;
    [|now rewrite loop_date_out].
  unfold schedule_of.
  destruct (Z.lt_ge_cases loan_term 1) as [Hn|Hn].
  - unfold months. rewrite seqZ_nil by lia.
    replace (Z.to_nat loan_term) with 0%nat by lia. reflexivity.
  - revert E. rewrite (months_split loan_term Hn), forallb_app.
    cbn [forallb]. rewrite andb_true_r, andb_true_iff. intros [Hd Hlast].
    replace (loan_term - 1)%Z with (Z.of_nat (Z.to_nat (loan_term - 1)))
      in Hd |- * by lia.
    rewrite for_each_app, regular_iterations by (first [lia | exact Hd]).
    cbn [mbind result_bind for_each].
    rewrite step_final by exact Hlast.
    cbn [mbind result_bind st_remaining_principal st_schedule].
    replace (Z.to_nat loan_term) with (S (Z.to_nat (loan_term - 1))) by lia.
    rewrite seq_S, map_app. cbn [map Nat.add].
    rewrite entry_of_final by lia. reflexivity.
Qed.

End Loop.

(** [generate_emi_schedule] after [calculate_emi]: the schedule in closed
    form when every due date is in range, [OverflowError] otherwise. *)
Lemma generate_emi_schedule_unfold (loan_amount interest_rate : Q)
    (loan_term : Z) (start_date : Datetime.t) :
  generate_emi_schedule loan_amount interest_rate loan_term start_date
  = match calculate_emi loan_amount interest_rate loan_term with
    | Raise e => Raise e
    | Ok emi =>
        if due_dates_ok start_date loan_term
        then Ok (schedule_of emi loan_amount (monthly_rate_of interest_rate)
                   loan_term start_date)
        else Raise OverflowError
    end.
Proof.
  unfold generate_emi_schedule.
  destruct (calculate_emi _ _ _) as [emi|e]; [|reflexivity].
  cbn [mbind result_bind]. apply loop_result.
Qed.

(** When [d + timedelta(days=k)] is a date. *)
Lemma add_days_in_range (d : Datetime.t) (k : Z) :
  raised (Datetime.add_days d k) = false
  <-> (Z.abs k <= Datetime.MAX_DELTA_DAYS
       /\ 1 <= Datetime.ordinal d + k <= Datetime.MAXORDINAL)%Z.
Proof.
  unfold Datetime.add_days.
  destruct (Z.leb_spec (Z.abs k) Datetime.MAX_DELTA_DAYS);
    destruct (Z.leb_spec 1 (Datetime.ordinal d + k));
    destruct (Z.leb_spec (Datetime.ordinal d + k) Datetime.MAXORDINAL);
    cbn [andb raised]; split; first [lia | discriminate | reflexivity].
Qed.

Lemma due_dates_ok_iff (start_date : Datetime.t) (loan_term : Z) :
  due_dates_ok start_date loan_term = true
  <-> forall i : Z,
        (1 <= i <= loan_term)%Z ->
        (Z.abs (30 * i) <= Datetime.MAX_DELTA_DAYS
         /\ 1 <= Datetime.ordinal start_date + 30 * i <= Datetime.MAXORDINAL)%Z.
Proof.
  unfold due_dates_ok, months. rewrite forallb_forall. split.
  - intros H i Hi. apply add_days_in_range.
    rewrite <- negb_true_iff. apply H.
    apply list_elem_of_In, elem_of_seqZ. lia.
  - intros H i Hi. apply list_elem_of_In, elem_of_seqZ in Hi.
    rewrite negb_true_iff. apply add_days_in_range, H. lia.
Qed.

(** From a start date in the range of [datetime], the due dates are in
    range exactly when the last one is. *)
Lemma due_dates_ok_last (start_date : Datetime.t) (loan_term : Z) :
  (1 <= Datetime.ordinal start_date)%Z -> (1 <= loan_term)%Z ->
  due_dates_ok start_date loan_term = true
  <-> (Datetime.ordinal start_date + 30 * loan_term <= Datetime.MAXORDINAL)%Z.
Proof.
  intros Hs Hn. rewrite due_dates_ok_iff.
  unfold Datetime.MAX_DELTA_DAYS, Datetime.MAXORDINAL. split.
  - intros H. apply (H loan_term). lia.
  - intros H i Hi. lia.
Qed.

Lemma due_dates_ok_no_month (start_date : Datetime.t) (loan_term : Z) :
  (loan_term < 1)%Z -> due_dates_ok start_date loan_term = true.
Proof. intros Hn. apply due_dates_ok_iff. intros i Hi. lia. Qed.

Section Entries.

Variables (emi loan_amount monthly_rate : Q) (loan_term : Z)
  (start_date : Datetime.t).

Let balance := balance_after emi monthly_rate loan_amount.
Let entries := entry_of emi loan_amount monthly_rate loan_term start_date.

Lemma entry_of_number (k : nat) : emi_number (entries k) = (Z.of_nat k + 1)%Z.
Proof.
  unfold entries, entry_of. cbv zeta.
  destruct (_ =? _)%Z; reflexivity.
Qed.

Lemma entry_of_due_date (k : nat) :
  due_date (entries k) = due_date_of start_date (Z.of_nat k + 1).
Proof.
  unfold entries, entry_of. cbv zeta.
  destruct (_ =? _)%Z; reflexivity.
Qed.





Lemma schedule_of_numbers :
  map emi_number (schedule_of emi loan_amount monthly_rate loan_term start_date)
  = seqZ 1 loan_term.
Proof.
  unfold schedule_of, seqZ. rewrite map_map.
  apply map_ext. exact entry_of_number.
Qed.

Lemma schedule_of_length :
  length (schedule_of emi loan_amount monthly_rate loan_term start_date)
  = Z.to_nat loan_term.
Proof. unfold schedule_of. now rewrite length_map, length_seq. Qed.

Lemma schedule_of_due_dates :
  Forall (fun e => due_date e = due_date_of start_date (emi_number e))
    (schedule_of emi loan_amount monthly_rate loan_term start_date).
Proof.
  unfold schedule_of. apply Forall_map, Forall_forall. intros k _.
  fold entries. now rewrite entry_of_number, entry_of_due_date.
Qed.

End Entries.

End ScheduleFacts.

(** ** The validator *)

Module ValidatorFacts.
Import LoanValidator.
Export ValidatorTerms.

Lemma calculate_dti_ratio_total (user : User) (new_loan_emi : Q) :
  calculate_dti_ratio user new_loan_emi = Ok (dti_value user new_loan_emi).
Proof.
  unfold calculate_dti_ratio, dti_value.
  destruct (Qeq_bool (annual_income user / 12) 0) eqn:E; [reflexivity|].
  rewrite div_ok; [reflexivity|].
  intros H. apply Qeq_bool_iff in H. congruence.
Qed.

Lemma Qgtb_lt (a b : Q) : Qgtb a b = true <-> b < a.
Proof.
  unfold Qgtb, Qltb. rewrite negb_true_iff.
  split.
  - intros H. apply Qnot_le_lt. intros Hle.
    apply Qle_bool_iff in Hle. congruence.
  - intros H. destruct (Qle_bool a b) eqn:E; [|reflexivity].
    apply Qle_bool_iff in E. lra.
Qed.

Lemma loan_to_income_total (user : User) (loan_amount : Q) :
  loan_to_income_of user loan_amount = Ok (lti_value user loan_amount).
Proof.
  unfold loan_to_income_of, lti_value.
  destruct (Qgtb (annual_income user) 0) eqn:E; [|reflexivity].
  apply Qgtb_lt in E. rewrite div_ok; [reflexivity|lra].
Qed.

(** The evaluation raises exactly when the installment does; otherwise it
    returns the checks over the calculations. *)
Lemma validate_unfold (today : Datetime.t) (user : User)
    (loan_amount interest_rate : Q) (loan_term : Z) (loan_type : string) :
  validate_loan_application today user loan_amount interest_rate loan_term
    loan_type
  = match LoanCalculator.calculate_emi loan_amount interest_rate loan_term with
    | Raise e => Raise e
    | Ok new_loan_emi =>
        let m := metrics today user loan_amount loan_term new_loan_emi in
        Ok (run_checks (criteria_for loan_type) user interest_rate m, m)
    end.
Proof.
  unfold validate_loan_application.
  destruct (LoanCalculator.calculate_emi _ _ _) as [new_loan_emi|e];
    [|reflexivity].
  cbn [mbind result_bind].
  rewrite calculate_dti_ratio_total. cbn [mbind result_bind].
  rewrite loan_to_income_total. reflexivity.
Qed.

(** The issues are the reasons of the failing checks, in source order. *)
Lemma run_checks_table (c : criteria) (user : User) (interest_rate : Q)
    (m : calculations) :
  run_checks c user interest_rate m
  = map snd (List.filter fst (checks c user interest_rate m)).
Proof.
  unfold run_checks, checks, append_if. cbn [List.filter fst].
  destruct (fails_min_age c m), (fails_max_age_maturity c m),
    (fails_min_income c user), (fails_min_employment c m),
    (fails_min_credit_score c user), (fails_max_dti c m),
    (fails_min_interest_rate c interest_rate),
    (fails_max_loan_to_income c m); reflexivity.
Qed.

Lemma In_run_checks (c : criteria) (user : User) (interest_rate : Q)
    (m : calculations) (x : issue) :
  In x (run_checks c user interest_rate m)
  <-> In (true, x) (checks c user interest_rate m).
Proof.
  rewrite run_checks_table, in_map_iff. split.
  - intros [[b y] [Hy Hin]]. simpl in Hy. subst y.
    apply filter_In in Hin. destruct Hin as [Hin Hb].
    simpl in Hb. now subst b.
  - intros Hin. exists (true, x). split; [reflexivity|].
    apply filter_In. now split.
Qed.

End ValidatorFacts.

(** * The claims of the specification *)

Section AmortizationClaims.
Import LoanCalculator ScheduleFacts.

(** C1 (code defect).  The claim asks that [calculate_emi] with an annual
    rate of 0 return [principal / termMonths] rounded to 2 decimals.  The
    source has no zero-rate branch: the monthly rate is 0, both powers are
    1, and the division by [1 - 1] raises [ZeroDivisionError], for every
    principal and every term. *)
Theorem C1_zero_rate_raises (principal : Q) (tenure_months : Z) :
  calculate_emi principal 0 tenure_months = Raise ZeroDivisionError.
Proof. apply EmiFacts.calculate_emi_zero_rate. Qed.

(** C2, as stated, fails: a principal of -1000, a rate of -5 and a term of
    -12 months each make [calculate_emi] return a number, and an
    application for a principal of -1000 is evaluated and stored as
    [Rejected] with business reasons. *)
Lemma C2_counterexample :
  raised (calculate_emi (-1000) 12 12) = false
  /\ raised (calculate_emi 1000 (-5) 12) = false
  /\ raised (calculate_emi 1000 12 (-12)) = false
  /\ (loan ← apply_loan new_year_2026 low_income_user (-1000) 12 12
               "Personal Loan";
      Ok (status loan)) = Ok Rejected.
Proof. vm_compute. repeat split; reflexivity. Qed.

(** C2 (amended).  No argument is validated: a principal <= 0, a term <= 0
    or a negative rate goes into the installment formula like any other
    value.  When [calculate_emi] returns a number for such an input, the
    evaluation returns its issues (the reasons of the eight checks) and
    calculations, and [apply_loan] stores the application, [Rejected] when
    there are issues and [Pending] otherwise.  When [calculate_emi] raises,
    the evaluation and [apply_loan] raise the same exception, which is one
    of its arithmetic: at a term of 0 it is [ZeroDivisionError]. *)
Theorem C2_arguments_are_not_validated (today : Datetime.t) (user : User)
    (principal annual_rate : Q) (term : Z) (type : string) :
  principal <= 0 \/ (term <= 0)%Z \/ annual_rate < 0 ->
  (term = 0%Z ->
   calculate_emi principal annual_rate term = Raise ZeroDivisionError)
  /\ match calculate_emi principal annual_rate term with
     | Raise e =>
         LoanValidator.validate_loan_application today user principal
           annual_rate term type = Raise e
         /\ apply_loan today user principal annual_rate term type = Raise e
     | Ok emi =>
         exists (issues : list LoanValidator.issue)
                (m : LoanValidator.calculations) (loan : Loan),
           LoanValidator.validate_loan_application today user principal
             annual_rate term type = Ok (issues, m)
           /\ issues
              = LoanValidator.run_checks (LoanValidator.criteria_for type)
                  user annual_rate m
           /\ apply_loan today user principal annual_rate term type = Ok loan
           /\ loan_amount loan = principal
           /\ interest_rate loan = annual_rate
           /\ loan_term loan = term
           /\ status loan = match issues with [] => Pending | _ => Rejected end
     end.
Proof.
  intros _. split.
  { intros ->. apply EmiFacts.calculate_emi_zero_term. }
  pose proof (ValidatorFacts.validate_unfold today user principal annual_rate
                term type) as Hv.
  unfold apply_loan.
  destruct (calculate_emi principal annual_rate term) as [emi|e].
  - cbv zeta in Hv. rewrite Hv. cbn [mbind result_bind].
    destruct (LoanValidator.run_checks _ _ _ _) as [|i l] eqn:E;
      eexists _, _, _;
      (split; [reflexivity|]); (split; [symmetry; exact E|]);
      repeat split.
  - rewrite Hv. split; reflexivity.
Qed.

Lemma C2_witness :
  (12%Z = 0%Z -> calculate_emi (-1000) 12 12 = Raise ZeroDivisionError)
  /\ match calculate_emi (-1000) 12 12 with
     | Raise e =>
         LoanValidator.validate_loan_application new_year_2026
           low_income_user (-1000) 12 12 "Personal Loan" = Raise e
         /\ apply_loan new_year_2026 low_income_user (-1000) 12 12
              "Personal Loan" = Raise e
     | Ok emi =>
         exists (issues : list LoanValidator.issue)
                (m : LoanValidator.calculations) (loan : Loan),
           LoanValidator.validate_loan_application new_year_2026
             low_income_user (-1000) 12 12 "Personal Loan" = Ok (issues, m)
           /\ issues
              = LoanValidator.run_checks
                  (LoanValidator.criteria_for "Personal Loan")
                  low_income_user 12 m
           /\ apply_loan new_year_2026 low_income_user (-1000) 12 12
                "Personal Loan" = Ok loan
           /\ loan_amount loan = -1000
           /\ interest_rate loan = 12
           /\ loan_term loan = 12%Z
           /\ status loan = match issues with [] => Pending | _ => Rejected end
     end.
Proof.
  apply (C2_arguments_are_not_validated new_year_2026 low_income_user
           (-1000) 12 12 "Personal Loan").
  left. discriminate.
Defined.





(** C5 (code defect).  The claim covers a rate of 0, where the schedule is
    never built: [generate_emi_schedule] first calls [calculate_emi], which
    raises [ZeroDivisionError] (the defect of C1). *)
Theorem C5_zero_rate_schedule_raises (principal : Q) (term : Z)
    (start_date : Datetime.t) :
  generate_emi_schedule principal 0 term start_date
  = Raise ZeroDivisionError.
Proof.
  unfold generate_emi_schedule.
  rewrite EmiFacts.calculate_emi_zero_rate. reflexivity.
Qed.

End AmortizationClaims.

Section UnderwritingClaims.
Import LoanValidator ValidatorFacts.

(** C6.  An evaluation whose installment is computed runs the eight checks
    independently: the issues are the reasons of the failing checks in
    source order, one per failing check, and the reason of a check is among
    the issues exactly when that check fails.  When the installment raises,
    the evaluation raises the same exception before any check. *)
Theorem C6_all_checks_run (today : Datetime.t) (user : User)
    (loan_amount interest_rate : Q) (loan_term : Z) (loan_type : string) :
  match LoanCalculator.calculate_emi loan_amount interest_rate loan_term with
  | Raise e =>
      validate_loan_application today user loan_amount interest_rate
        loan_term loan_type = Raise e
  | Ok new_loan_emi =>
      exists (issues : list issue) (m : calculations),
        let c := criteria_for loan_type in
        validate_loan_application today user loan_amount interest_rate
          loan_term loan_type = Ok (issues, m)
        /\ issues = map snd (List.filter fst (checks c user interest_rate m))
        /\ length issues = failing_count c user interest_rate m
        /\ (forall (failed : bool) (reason : issue),
              In (failed, reason) (checks c user interest_rate m) ->
              (In reason issues <-> failed = true))
  end.
Proof.
  rewrite validate_unfold.
  destruct (LoanCalculator.calculate_emi _ _ _) as [new_loan_emi|e];
    [|reflexivity].
  cbv zeta.
  set (m := metrics today user loan_amount loan_term new_loan_emi).
  set (c := criteria_for loan_type).
  exists (run_checks c user interest_rate m), m.
  split; [reflexivity|]. split; [apply run_checks_table|]. split.
  - rewrite run_checks_table, length_map. reflexivity.
  - intros failed reason Hin. rewrite In_run_checks. split.
    + intros Ht. unfold checks in Hin, Ht.
      cbn [In] in Hin, Ht.
      repeat (destruct Hin as [Hin|Hin];
              [injection Hin as <- <-;
               repeat (destruct Ht as [Ht|Ht];
                       [first [discriminate Ht
                              | now injection Ht as -> ]|]);
               contradiction|]).
      contradiction.
    + intros ->. exact Hin.
Qed.

(** Several reasons in one evaluation: four checks fail for this applicant
    and all four are reported. *)
Example several_reasons :
  ('(issues, _) ← validate_loan_application new_year_2026 low_income_user
                    1000000 10.5 60 "Personal Loan";
   Ok (map (fun x => match x with
                     | MaximumDti limit _ => MaximumDti limit 0
                     | _ => x
                     end) issues))
  = Ok [MinimumAnnualIncome 300000; MinimumEmploymentYears 1;
        MinimumCreditScore 650; MaximumDti 40 0].
Proof. vm_compute. reflexivity. Qed.

(** C7.  When the evaluation returns, [apply_loan] stores [Rejected] exactly
    when there are issues and [Pending] exactly when there are none, never
    [Approved]; when the evaluation raises, so does [apply_loan]. *)
Theorem C7_status_decision (today : Datetime.t) (user : User)
    (loan_amount interest_rate : Q) (loan_term : Z) (loan_type : string) :
  match validate_loan_application today user loan_amount interest_rate
          loan_term loan_type with
  | Raise e =>
      apply_loan today user loan_amount interest_rate loan_term loan_type
      = Raise e
  | Ok (issues, _) =>
      exists loan : Loan,
        apply_loan today user loan_amount interest_rate loan_term loan_type
        = Ok loan
        /\ (status loan = Rejected <-> issues <> [])
        /\ (status loan = Pending <-> issues = [])
        /\ status loan <> Approved
  end.
Proof.
  unfold apply_loan.
  destruct (validate_loan_application _ _ _ _ _ _) as [[issues m]|e];
    [|reflexivity].
  cbn [mbind result_bind].
  destruct issues as [|i l]; eexists; (split; [reflexivity|]);
    cbn [status]; repeat split; intros; congruence.
Qed.

(** The catalog entries whose maximum DTI is 0: only Education Loan. *)
Lemma zero_dti_entry (loan_type : string) (c : criteria) :
  LOAN_CRITERIA !! loan_type = Some c -> max_dti_ratio c == 0 ->
  loan_type = "Education Loan".
Proof.
  unfold LOAN_CRITERIA. intros Hc Hz.
  repeat (apply lookup_insert_Some in Hc as [[<- <-]|[_ Hc]];
          [first [reflexivity | discriminate Hz]|]).
  now rewrite lookup_empty in Hc.
Qed.

Lemma In_max_dti (c : criteria) (user : User) (interest_rate : Q)
    (m : calculations) :
  In (MaximumDti (max_dti_ratio c) (dti_ratio m))
     (run_checks c user interest_rate m)
  <-> max_dti_ratio c < dti_ratio m.
Proof.
  rewrite In_run_checks, <- Qgtb_lt. fold (fails_max_dti c m).
  unfold checks. cbn [In]. split.
  - intros H.
    repeat (destruct H as [H|H];
            [first [discriminate H | now injection H as ->]|]).
    contradiction.
  - intros ->. do 5 right. left. reflexivity.
Qed.

(** C8.  Under a criteria entry whose maximum DTI is 0 (in the catalog:
    Education Loan only), every evaluation that returns lists the DTI reason
    exactly when the DTI it computed is strictly positive; for a DTI that
    is not negative, that is exactly when it is not 0.  The evaluation
    raises only when the installment does. *)
Theorem C8_zero_max_dti (today : Datetime.t) (user : User)
    (loan_amount interest_rate : Q) (loan_term : Z) (loan_type : string) :
  max_dti_ratio (criteria_for loan_type) == 0 ->
  (forall (k : string) (c : criteria),
     LOAN_CRITERIA !! k = Some c -> max_dti_ratio c == 0 ->
     k = "Education Loan")
  /\ match validate_loan_application today user loan_amount interest_rate
             loan_term loan_type with
     | Ok (issues, m) =>
         let reason :=
           MaximumDti (max_dti_ratio (criteria_for loan_type))
             (dti_ratio m) in
         (In reason issues <-> 0 < dti_ratio m)
         /\ (0 <= dti_ratio m -> (In reason issues <-> ~ dti_ratio m == 0))
     | Raise e =>
         LoanCalculator.calculate_emi loan_amount interest_rate loan_term
         = Raise e
     end.
Proof.
  intros Hz. split; [exact zero_dti_entry|].
  rewrite validate_unfold.
  destruct (LoanCalculator.calculate_emi _ _ _) as [emi|e]; [|reflexivity].
  cbv beta iota zeta.
  set (m := metrics today user loan_amount loan_term emi).
  rewrite In_max_dti. split; [split; intros H; lra|].
  intros Hd. split.
  - intros H Heq. lra.
  - intros Hne. destruct (Qlt_le_dec 0 (dti_ratio m)) as [Hlt|Hle]; [lra|].
    exfalso. apply Hne. lra.
Qed.

Lemma C8_witness :
  (forall (k : string) (c : criteria),
     LOAN_CRITERIA !! k = Some c -> max_dti_ratio c == 0 ->
     k = "Education Loan")
  /\ match validate_loan_application new_year_2026 student 200000 9 48
             "Education Loan" with
     | Ok (issues, m) =>
         let reason :=
           MaximumDti (max_dti_ratio (criteria_for "Education Loan"))
             (dti_ratio m) in
         (In reason issues <-> 0 < dti_ratio m)
         /\ (0 <= dti_ratio m -> (In reason issues <-> ~ dti_ratio m == 0))
     | Raise e => LoanCalculator.calculate_emi 200000 9 48 = Raise e
     end.
Proof.
  apply (C8_zero_max_dti new_year_2026 student 200000 9 48 "Education Loan").
  reflexivity.
Defined.

(** An Education Loan for this student: the DTI is positive and the DTI
    reason is listed. *)
Example student_education_loan :
  ('(issues, m) ← validate_loan_application new_year_2026 student 200000 9
                    48 "Education Loan";
   Ok (Qgtb (dti_ratio m) 0,
       existsb (fun x => match x with
                         | MaximumDti _ _ => true
                         | _ => false
                         end) issues))
  = Ok (true, true).
Proof. vm_compute. reflexivity. Qed.

(** C9.  With an annual income of 0, [calculate_dti_ratio] returns 100 for
    every candidate installment, without dividing. *)
Theorem C9_dti_sentinel (user : User) (new_loan_emi : Q) :
  annual_income user == 0 ->
  calculate_dti_ratio user new_loan_emi = Ok 100.
Proof.
  intros H. unfold calculate_dti_ratio.
  assert (Qeq_bool (annual_income user / 12) 0 = true) as ->.
  { apply Qeq_bool_iff. rewrite H. reflexivity. }
  reflexivity.
Qed.

Lemma C9_witness : calculate_dti_ratio no_income_user 2500 = Ok 100.
Proof. apply (C9_dti_sentinel no_income_user 2500). reflexivity. Defined.

(** C10.  With an annual income of 0 the loan-to-income ratio is
    [float('inf')]; the loan-to-income check then fails against every
    finite maximum, and every evaluation that returns reports its reason
    (an evaluation raises only when the installment does). *)
Theorem C10_loan_to_income_sentinel (user : User) (loan_amount : Q) :
  annual_income user == 0 -> 0 < loan_amount ->
  loan_to_income_of user loan_amount = Ok Infinity
  /\ (forall (c : criteria) (m : calculations),
        loan_to_income m = Infinity -> fails_max_loan_to_income c m = true)
  /\ (forall (today : Datetime.t) (interest_rate : Q) (loan_term : Z)
             (loan_type : string),
        match validate_loan_application today user loan_amount interest_rate
                loan_term loan_type with
        | Ok (issues, m) =>
            loan_to_income m = Infinity
            /\ In (MaximumLoanToIncome
                     (max_loan_to_income (criteria_for loan_type))) issues
        | Raise e =>
            LoanCalculator.calculate_emi loan_amount interest_rate loan_term
            = Raise e
        end).
Proof.
  intros Hi _.
  assert (lti_value user loan_amount = Infinity) as Hlti.
  { unfold lti_value. destruct (Qgtb (annual_income user) 0) eqn:E;
      [|reflexivity].
    apply Qgtb_lt in E. lra. }
  split; [|split].
  - now rewrite loan_to_income_total, Hlti.
  - intros c m Hm. unfold fails_max_loan_to_income. now rewrite Hm.
  - intros today interest_rate loan_term loan_type.
    rewrite validate_unfold.
    destruct (LoanCalculator.calculate_emi _ _ _) as [emi|e];
      [|reflexivity].
    cbv zeta. split; [exact Hlti|].
    apply In_run_checks. unfold checks. cbn [In]. do 7 right. left.
    unfold fails_max_loan_to_income. cbn [metrics loan_to_income].
    now rewrite Hlti.
Qed.

Lemma C10_witness :
  loan_to_income_of no_income_user 500000 = Ok Infinity
  /\ (forall (c : criteria) (m : calculations),
        loan_to_income m = Infinity -> fails_max_loan_to_income c m = true)
  /\ (forall (today : Datetime.t) (interest_rate : Q) (loan_term : Z)
             (loan_type : string),
        match validate_loan_application today no_income_user 500000
                interest_rate loan_term loan_type with
        | Ok (issues, m) =>
            loan_to_income m = Infinity
            /\ In (MaximumLoanToIncome
                     (max_loan_to_income (criteria_for loan_type))) issues
        | Raise e =>
            LoanCalculator.calculate_emi 500000 interest_rate loan_term
            = Raise e
        end).
Proof.
  apply (C10_loan_to_income_sentinel no_income_user 500000); reflexivity.
Defined.

End UnderwritingClaims.


(** * Further properties of the code *)

(** ** LoanCalculator: terms of 0 or fewer months *)

Section CalculatorExtras.
Import LoanCalculator ScheduleFacts.

(** A term of 0 months makes the three calculator functions raise
    [ZeroDivisionError], whatever the principal, the rate and the date. *)
Theorem zero_term_raises (principal annual_rate : Q)
    (start_date : Datetime.t) :
  calculate_emi principal annual_rate 0 = Raise ZeroDivisionError
  /\ generate_emi_schedule principal annual_rate 0 start_date
     = Raise ZeroDivisionError
  /\ calculate_total_interest principal annual_rate 0
     = Raise ZeroDivisionError.
Proof.
  unfold generate_emi_schedule, calculate_total_interest.
  rewrite EmiFacts.calculate_emi_zero_term. repeat split.
Qed.

(** A negative term is not refused: once the installment is computed, the
    loop has no month to run and the schedule is empty; the only errors
    are those of the installment. *)
Theorem negative_term_empty_schedule (principal annual_rate : Q)
    (loan_term : Z) (start_date : Datetime.t) :
  (loan_term < 0)%Z ->
  match calculate_emi principal annual_rate loan_term with
  | Ok _ =>
      generate_emi_schedule principal annual_rate loan_term start_date
      = Ok []
  | Raise e =>
      generate_emi_schedule principal annual_rate loan_term start_date
      = Raise e
  end.
Proof.
  intros Hn. rewrite generate_emi_schedule_unfold.
  destruct (calculate_emi principal annual_rate loan_term) as [emi|e];
    [|reflexivity].
  rewrite due_dates_ok_no_month by lia.
  unfold schedule_of. replace (Z.to_nat loan_term) with 0%nat by lia.
  reflexivity.
Qed.

Lemma negative_term_empty_schedule_witness :
  match calculate_emi 1000 12 (-12) with
  | Ok _ => generate_emi_schedule 1000 12 (-12) new_year_2026 = Ok []
  | Raise e => generate_emi_schedule 1000 12 (-12) new_year_2026 = Raise e
  end.
Proof.
  apply (negative_term_empty_schedule 1000 12 (-12) new_year_2026). lia.
Defined.

(** With these arguments the installment is computed, so the schedule is
    the empty list. *)
Example schedule_of_minus_12_months :
  generate_emi_schedule 1000 12 (-12) new_year_2026 = Ok [].
Proof. vm_compute. reflexivity. Qed.

End CalculatorExtras.

(** ** The entries of the schedule *)

Section ScheduleEntries.
Import LoanCalculator ScheduleFacts.

(** The schedule has one entry per month of the term, numbered from 1 in
    order: [max(loan_term, 0)] entries.  It is returned exactly when the
    installment is computed and every due date is in range; otherwise the
    exception is that of the installment, or [OverflowError] for a due
    date. *)
Theorem schedule_has_term_entries (loan_amount interest_rate : Q)
    (loan_term : Z) (start_date : Datetime.t) :
  match generate_emi_schedule loan_amount interest_rate loan_term start_date
  with
  | Ok schedule =>
      length schedule = Z.to_nat loan_term
      /\ map emi_number schedule = seqZ 1 loan_term
      /\ raised (calculate_emi loan_amount interest_rate loan_term) = false
      /\ due_dates_ok start_date loan_term = true
  | Raise e =>
      calculate_emi loan_amount interest_rate loan_term = Raise e
      \/ (e = OverflowError
          /\ raised (calculate_emi loan_amount interest_rate loan_term)
             = false
          /\ due_dates_ok start_date loan_term = false)
  end.
Proof.
  rewrite generate_emi_schedule_unfold.
  destruct (calculate_emi loan_amount interest_rate loan_term) as [emi|e];
    [|now left].
  destruct (due_dates_ok start_date loan_term); [|now right].
  split; [apply schedule_of_length|]. split; [apply schedule_of_numbers|].
  split; reflexivity.
Qed.

(** Once the installment is computed, the schedule is returned when every
    due date is in the range of [datetime] and [OverflowError] is raised
    otherwise.  Entry [i] is due 30 * [i] days after the start date, at the
    same time of day, on a day up to 9999-12-31.  From a start date in
    range, the due dates are in range exactly when the last one,
    30 * [loan_term] days after the start, is. *)
Theorem schedule_due_dates (loan_amount interest_rate : Q) (loan_term : Z)
    (start_date : Datetime.t) :
  match calculate_emi loan_amount interest_rate loan_term with
  | Raise e =>
      generate_emi_schedule loan_amount interest_rate loan_term start_date
      = Raise e
  | Ok _ =>
      if due_dates_ok start_date loan_term
      then
        exists schedule : list entry,
          generate_emi_schedule loan_amount interest_rate loan_term
            start_date = Ok schedule
          /\ Forall
               (fun e =>
                  Datetime.ordinal (due_date e)
                  = (Datetime.ordinal start_date + 30 * emi_number e)%Z
                  /\ Datetime.microsecond_of_day (due_date e)
                     = Datetime.microsecond_of_day start_date
                  /\ (1 <= Datetime.ordinal (due_date e)
                       <= Datetime.MAXORDINAL)%Z)
               schedule
      else
        generate_emi_schedule loan_amount interest_rate loan_term start_date
        = Raise OverflowError
  end
  /\ ((1 <= Datetime.ordinal start_date)%Z -> (1 <= loan_term)%Z ->
      (due_dates_ok start_date loan_term = true
       <-> (Datetime.ordinal start_date + 30 * loan_term
            <= Datetime.MAXORDINAL)%Z)).
Proof.
  split; [|apply due_dates_ok_last].
  rewrite generate_emi_schedule_unfold.
  destruct (calculate_emi loan_amount interest_rate loan_term) as [emi|e];
    [|reflexivity].
  destruct (due_dates_ok start_date loan_term) eqn:E; [|reflexivity].
  eexists. split; [reflexivity|].
  pose proof (schedule_of_due_dates emi loan_amount
                (monthly_rate_of interest_rate) loan_term start_date) as Hd.
  pose proof (schedule_of_numbers emi loan_amount
                (monthly_rate_of interest_rate) loan_term start_date) as Hn.
  rewrite due_dates_ok_iff in E.
  rewrite List.Forall_forall in Hd |- *. intros e He.
  rewrite (Hd e He). cbn [due_date_of Datetime.ordinal
                           Datetime.microsecond_of_day].
  split; [reflexivity|]. split; [reflexivity|].
  apply E.
  assert (In (emi_number e) (seqZ 1 loan_term)) as Hin
    by (rewrite <- Hn; now apply in_map).
  apply list_elem_of_In, elem_of_seqZ in Hin. lia.
Qed.

(** A loan of 1000 at 12% over 3 months from 2026-01-01: three entries, due
    on days 30, 60 and 90.  From 9999-12-01 a term of one month is due on
    the last day of the range, and a term of two months raises. *)
Example schedule_of_3_months :
  (schedule ← generate_emi_schedule 1000 12 3 new_year_2026;
   Ok (map (fun e => (emi_number e, Datetime.ordinal (due_date e)))
         schedule))
  = Ok [(1, 739647); (2, 739677); (3, 739707)]%Z
  /\ (schedule ← generate_emi_schedule 1000 12 1 (Datetime.mk 3652029 0);
      Ok (map (fun e => (emi_number e, Datetime.ordinal (due_date e)))
            schedule))
     = Ok [(1, 3652059)]%Z
  /\ generate_emi_schedule 1000 12 2 (Datetime.mk 3652029 0)
     = Raise OverflowError.
Proof. vm_compute. repeat split; reflexivity. Qed.

End ScheduleEntries.

(** ** LoanValidator: ratios, thresholds and fallbacks *)

Section ValidatorExtras.
Import LoanValidator ValidatorTerms.

Lemma Qltb_false (a b : Q) : Qltb a b = false <-> ~ a < b.
Proof.
  unfold Qltb. rewrite negb_false_iff, Qle_bool_iff. split.
  - apply Qle_not_lt.
  - apply Qnot_lt_le.
Qed.

Lemma Qgtb_false (a b : Q) : Qgtb a b = false <-> ~ b < a.
Proof. unfold Qgtb. apply Qltb_false. Qed.


Lemma criteria_for_unknown (loan_type : string) :
  loan_type ∉ loan_types -> criteria_for loan_type = personal_loan.
Proof.
  intros Hk. unfold criteria_for, LOAN_CRITERIA, loan_types in *.
  repeat (rewrite lookup_insert_ne by set_solver).
  rewrite lookup_empty. reflexivity.
Qed.

(** A loan type that is not a key of [LOAN_CRITERIA] is evaluated exactly
    like a Personal Loan; each key has its own entry. *)
Theorem unknown_type_as_personal (today : Datetime.t) (user : User)
    (loan_amount interest_rate : Q) (loan_term : Z) (loan_type : string) :
  loan_type ∉ loan_types ->
  criteria_for loan_type = personal_loan
  /\ validate_loan_application today user loan_amount interest_rate
       loan_term loan_type
     = validate_loan_application today user loan_amount interest_rate
         loan_term "Personal Loan"
  /\ map criteria_for loan_types
     = [personal_loan; home_loan; car_loan; education_loan; business_loan]
  /\ dom LOAN_CRITERIA = list_to_set loan_types.
Proof.
  intros Hk. pose proof (criteria_for_unknown loan_type Hk) as Hc.
  split; [exact Hc|]. split; [|split].
  - rewrite !ValidatorFacts.validate_unfold, Hc. reflexivity.
  - reflexivity.
  - unfold LOAN_CRITERIA, loan_types. rewrite !dom_insert_L, dom_empty_L.
    set_solver.
Qed.

Lemma unknown_type_as_personal_witness :
  criteria_for "Gold Loan" = personal_loan
  /\ validate_loan_application new_year_2026 low_income_user 1000 12 12
       "Gold Loan"
     = validate_loan_application new_year_2026 low_income_user 1000 12 12
         "Personal Loan"
  /\ map criteria_for loan_types
     = [personal_loan; home_loan; car_loan; education_loan; business_loan]
  /\ dom LOAN_CRITERIA = list_to_set loan_types.
Proof.
  apply (unknown_type_as_personal new_year_2026 low_income_user 1000 12 12
           "Gold Loan").
  apply (bool_decide_unpack ("Gold Loan" ∉ loan_types)).
  vm_compute. exact I.
Defined.

Lemma run_checks_nil (c : criteria) (user : User) (interest_rate : Q)
    (m : calculations) :
  run_checks c user interest_rate m = []
  <-> fails_min_age c m = false
      /\ fails_max_age_maturity c m = false
      /\ fails_min_income c user = false
      /\ fails_min_employment c m = false
      /\ fails_min_credit_score c user = false
      /\ fails_max_dti c m = false
      /\ fails_min_interest_rate c interest_rate = false
      /\ fails_max_loan_to_income c m = false.
Proof.
  unfold run_checks, append_if.
  destruct (fails_min_age c m), (fails_max_age_maturity c m),
    (fails_min_income c user), (fails_min_employment c m),
    (fails_min_credit_score c user), (fails_max_dti c m),
    (fails_min_interest_rate c interest_rate),
    (fails_max_loan_to_income c m);
    cbn [app]; split;
    first [ discriminate
          | intros (? & ? & ? & ? & ? & ? & ? & ?); discriminate
          | intros _; repeat split
          | intros _; reflexivity ].
Qed.

(** The thresholds are inclusive.  When the installment is computed, the
    evaluation reports no issue, and [apply_loan] stores the application as
    [Pending], exactly when none of the eight thresholds is crossed; a
    value equal to its threshold crosses nothing. *)
Theorem no_issues_iff_within_thresholds (today : Datetime.t) (user : User)
    (loan_amount interest_rate : Q) (loan_term : Z) (loan_type : string) :
  match LoanCalculator.calculate_emi loan_amount interest_rate loan_term with
  | Raise e =>
      validate_loan_application today user loan_amount interest_rate
        loan_term loan_type = Raise e
      /\ apply_loan today user loan_amount interest_rate loan_term loan_type
         = Raise e
  | Ok _ =>
      exists (issues : list issue) (m : calculations) (loan : Loan),
        validate_loan_application today user loan_amount interest_rate
          loan_term loan_type = Ok (issues, m)
        /\ apply_loan today user loan_amount interest_rate loan_term
             loan_type = Ok loan
        /\ (issues = []
            <-> within_thresholds (criteria_for loan_type) user
                  interest_rate m)
        /\ (status loan = Pending
            <-> within_thresholds (criteria_for loan_type) user
                  interest_rate m)
  end.
Proof.
  pose proof (ValidatorFacts.validate_unfold today user loan_amount
                interest_rate loan_term loan_type) as Hv.
  unfold apply_loan.
  destruct (LoanCalculator.calculate_emi _ _ _) as [emi|e];
    [|rewrite Hv; split; reflexivity].
  cbv zeta in Hv. rewrite Hv. cbn [mbind result_bind].
  set (m := metrics today user loan_amount loan_term emi).
  set (c := criteria_for loan_type).
  assert (run_checks c user interest_rate m = []
          <-> within_thresholds c user interest_rate m) as Hnil.
  { rewrite run_checks_nil. unfold within_thresholds.
    unfold fails_min_age, fails_max_age_maturity, fails_min_income,
      fails_min_employment, fails_min_credit_score, fails_max_dti,
      fails_min_interest_rate, fails_max_loan_to_income.
    rewrite !Qltb_false, !Qgtb_false.
    destruct (loan_to_income m) as [ratio|]; cbn [xgtb].
    - rewrite Qgtb_false. reflexivity.
    - intuition discriminate. }
  destruct (run_checks c user interest_rate m) as [|i l] eqn:E;
    eexists _, _, _; (split; [reflexivity|]); (split; [reflexivity|]);
    cbn [status]; rewrite <- Hnil; split; split; intros H;
    first [reflexivity | discriminate].
Qed.

(** An applicant on the thresholds of a Car Loan: aged exactly 21, income
    400000, one year of employment, credit score 600, at 7.5 percent; the
    DTI and the loan-to-income ratio are below their limits.  No issue is
    reported. *)
Example on_the_thresholds :
  ('(issues, m) ←
     validate_loan_application (Datetime.mk 736330 0)
       {| annual_income := 400000; credit_score := 600;
          date_of_birth := Some born_1996;
          employment_start_date := Some (Datetime.mk 735965 0);
          existing_emis := 0 |}
       100000 7.5 12 "Car Loan";
   Ok (issues, age m, Qeq_bool (employment_years m) 1))
  = Ok ([], 21%Z, true).
Proof. vm_compute. reflexivity. Qed.

End ValidatorExtras.

Section RejectionExtras.
Import LoanValidator ValidatorTerms.

Lemma apply_loan_rejects (today : Datetime.t) (user : User)
    (principal annual_rate : Q) (term : Z) (type : string)
    (issues : list issue) (m : calculations) :
  validate_loan_application today user principal annual_rate term type
  = Ok (issues, m) ->
  issues <> [] ->
  apply_loan today user principal annual_rate term type
  = Ok {| loan_amount := principal; interest_rate := annual_rate;
          loan_term := term; loan_type := type; status := Rejected;
          rejection_reason := Some issues |}.
Proof.
  intros Hv Hne. unfold apply_loan. rewrite Hv. cbn [mbind result_bind].
  destruct issues; [contradiction|reflexivity].
Qed.

(** A borrower without income is always auto-rejected, with the
    loan-to-income reason among the stored reasons, whatever the loan;
    the only other outcome is the exception of the installment. *)
Theorem zero_income_always_rejected (today : Datetime.t) (user : User)
    (principal annual_rate : Q) (term : Z) (type : string) :
  annual_income user == 0 ->
  match apply_loan today user principal annual_rate term type with
  | Ok loan =>
      status loan = Rejected
      /\ exists issues,
           rejection_reason loan = Some issues
           /\ In (MaximumLoanToIncome
                    (max_loan_to_income (criteria_for type))) issues
  | Raise e =>
      LoanCalculator.calculate_emi principal annual_rate term = Raise e
  end.
Proof.
  intros Hi.
  pose proof (ValidatorFacts.validate_unfold today user principal annual_rate
                term type) as Hv.
  destruct (LoanCalculator.calculate_emi principal annual_rate term)
    as [emi|e].
  - cbv zeta in Hv.
    set (m := metrics today user principal term emi) in *.
    assert (In (MaximumLoanToIncome (max_loan_to_income (criteria_for type)))
              (run_checks (criteria_for type) user annual_rate m)) as Hin.
    { apply ValidatorFacts.In_run_checks. unfold checks. cbn [In].
      do 7 right. left.
      unfold fails_max_loan_to_income, m. cbn [metrics loan_to_income].
      unfold lti_value.
      destruct (Qgtb (annual_income user) 0) eqn:G; [|reflexivity].
      apply ValidatorFacts.Qgtb_lt in G. lra. }
    rewrite (apply_loan_rejects _ _ _ _ _ _ _ _ Hv).
    + cbn [status rejection_reason]. split; [reflexivity|].
      eexists. split; [reflexivity|exact Hin].
    + intros Hnil. rewrite Hnil in Hin. contradiction.
  - unfold apply_loan. rewrite Hv. reflexivity.
Qed.

Lemma zero_income_always_rejected_witness :
  match apply_loan new_year_2026 no_income_user 500000 12 12 "Home Loan" with
  | Ok loan =>
      status loan = Rejected
      /\ exists issues,
           rejection_reason loan = Some issues
           /\ In (MaximumLoanToIncome
                    (max_loan_to_income (criteria_for "Home Loan"))) issues
  | Raise e => LoanCalculator.calculate_emi 500000 12 12 = Raise e
  end.
Proof.
  apply (zero_income_always_rejected new_year_2026 no_income_user 500000 12 12
           "Home Loan").
  reflexivity.
Defined.

End RejectionExtras.

Section EmploymentExtras.
Import LoanValidator.

Lemma round1_bounds (x : Q) : - (1 # 20) <= Py.round x 1 - x <= 1 # 20.
Proof.
  unfold Py.round. change (inject_Z (10 ^ 1)) with 10.
  pose proof (round_half_even_error (x * 10)) as H.
  unfold Qdiv. change (/ 10) with (1 # 10). lra.
Qed.

Lemma round1_sign (x : Q) :
  (0 <= x -> 0 <= Py.round x 1) /\ (x <= 0 -> Py.round x 1 <= 0).
Proof.
  unfold Py.round. change (inject_Z (10 ^ 1)) with 10.
  unfold Qdiv. change (/ 10) with (1 # 10). split; intros Hx.
  - assert (0 <= inject_Z (Py.round_half_even (x * 10))) as H.
    { change 0 with (inject_Z 0). rewrite <- Zle_Qle.
      apply round_half_even_nonneg. lra. }
    lra.
  - assert (inject_Z (Py.round_half_even (x * 10)) <= 0) as H.
    { change 0 with (inject_Z 0). rewrite <- Zle_Qle.
      apply round_half_even_nonpos. lra. }
    lra.
Qed.

Lemma diff_days_instants (a b : Datetime.t) :
  Datetime.diff_days a b = ((instant a - instant b) / Datetime.US_PER_DAY)%Z.
Proof.
  unfold Datetime.diff_days, instant. f_equal. ring.
Qed.

(** The years of employment are the whole days between the two dates
    divided by 365.25, within 0.05; they are non-negative when the start is
    not after today and non-positive when it is: a start date in the future
    is not refused. *)
Theorem employment_years_bounds (today start : Datetime.t) :
  let days := Datetime.diff_days today start in
  let years := calculate_employment_years today (Some start) in
  Qabs (years - inject_Z days / 365.25) <= 1 # 20
  /\ ((instant start <= instant today)%Z -> 0 <= years)
  /\ ((instant today < instant start)%Z -> years <= 0).
Proof.
  cbv zeta. unfold calculate_employment_years.
  set (days := Datetime.diff_days today start).
  split; [apply Qabs_Qle_condition, round1_bounds|].
  assert (forall z : Z, inject_Z z / 365.25 == inject_Z z * (100 # 36525))
    as Hdiv by (intros z; reflexivity).
  split; intros H.
  - apply round1_sign. rewrite Hdiv.
    assert (0 <= days)%Z as Hd.
    { unfold days. rewrite diff_days_instants.
      apply Z.div_pos; [lia|reflexivity]. }
    rewrite Zle_Qle in Hd. change (inject_Z 0) with 0 in Hd. lra.
  - apply round1_sign. rewrite Hdiv.
    assert (days < 0)%Z as Hd.
    { unfold days. rewrite diff_days_instants.
      apply Z.div_lt_upper_bound; [reflexivity|lia]. }
    rewrite Zlt_Qlt in Hd. change (inject_Z 0) with 0 in Hd. lra.
Qed.

End EmploymentExtras.

(** ** [register] and [login] *)

Section AccountExtras.

Lemma first_by_username_None (users : list Account) (name : string) :
  first_by_username users name = None <-> ~ In name (map username users).
Proof.
  unfold first_by_username. induction users as [|a users IH]; simpl.
  - tauto.
  - destruct (String.eqb_spec (username a) name) as [He|Hne].
    + split; [discriminate|]. intros H. exfalso. apply H. now left.
    + rewrite IH. tauto.
Qed.

Lemma first_by_email_None (users : list Account) (address : string) :
  first_by_email users address = None <-> ~ In address (map email users).
Proof.
  unfold first_by_email. induction users as [|a users IH]; simpl.
  - tauto.
  - destruct (String.eqb_spec (email a) address) as [He|Hne].
    + split; [discriminate|]. intros H. exfalso. apply H. now left.
    + rewrite IH. tauto.
Qed.

Lemma first_by_username_app (users more : list Account) (name : string)
    (a : Account) :
  first_by_username users name = Some a ->
  first_by_username (users ++ more) name = Some a.
Proof.
  unfold first_by_username. induction users as [|b users IH]; simpl.
  - discriminate.
  - destruct (String.eqb (username b) name); [trivial|exact IH].
Qed.

Lemma first_by_username_new (users : list Account) (a : Account) :
  ~ In (username a) (map username users) ->
  first_by_username (users ++ [a]) (username a) = Some a.
Proof.
  unfold first_by_username. induction users as [|b users IH]; simpl.
  - intros _. now rewrite String.eqb_refl.
  - intros H. destruct (String.eqb_spec (username b) (username a)) as [He|_].
    + exfalso. apply H. now left.
    + apply IH. tauto.
Qed.

Lemma NoDup_snoc {A : Type} (l : list A) (x : A) :
  NoDup l -> ~ In x l -> NoDup (l ++ [x]).
Proof.
  intros Hl Hx. apply NoDup_app. split; [exact Hl|]. split.
  - intros y Hy Hin. apply list_elem_of_In in Hy.
    apply list_elem_of_singleton in Hin. subst. contradiction.
  - apply NoDup_singleton.
Qed.

Variable generate_password_hash : string -> string -> string.
Variable check_password_hash : string -> string -> bool.

(** [register] adds a user exactly when the username and the email are new
    and the credit score is within 300..850, and otherwise leaves the table
    as it is; so user names and emails stay unique and all stored credit
    scores stay within 300..850. *)
Theorem register_keeps_accounts_ok (users : list Account) (salt : string)
    (form : registration_form) :
  accounts_ok users ->
  let result := register generate_password_hash users salt form in
  accounts_ok result.2
  /\ (result.1 = Registered
      <-> ~ In (form_username form) (map username users)
          /\ ~ In (form_email form) (map email users)
          /\ (300 <= form_credit_score form <= 850)%Z)
  /\ (result.1 <> Registered -> result.2 = users)
  /\ (result.1 = Registered -> length result.2 = S (length users)).
Proof.
  intros (Hu & He & Hc). cbv zeta. unfold register.
  destruct (first_by_username users (form_username form)) as [a|] eqn:Fu.
  { simpl. split; [now split|]. split; [|now split].
    split; [discriminate|]. intros (H & _).
    apply first_by_username_None in H. congruence. }
  destruct (first_by_email users (form_email form)) as [a|] eqn:Fe.
  { simpl. split; [now split|]. split; [|now split].
    split; [discriminate|]. intros (_ & H & _).
    apply first_by_email_None in H. congruence. }
  apply first_by_username_None in Fu. apply first_by_email_None in Fe.
  destruct ((form_credit_score form <? 300)%Z
            || (850 <? form_credit_score form)%Z) eqn:Cs.
  { simpl. split; [now split|]. split; [|now split].
    split; [discriminate|]. intros (_ & _ & H).
    apply orb_true_iff in Cs. destruct Cs as [Cs|Cs];
      [apply Z.ltb_lt in Cs|apply Z.ltb_lt in Cs]; lia. }
  apply orb_false_iff in Cs. destruct Cs as [C1 C2].
  apply Z.ltb_ge in C1, C2. cbv zeta. cbn [fst snd].
  split; [|split; [|split]].
  - split; [|split].
    + rewrite map_app. now apply NoDup_snoc.
    + rewrite map_app. now apply NoDup_snoc.
    + apply Forall_app. split; [exact Hc|].
      constructor; [|constructor]. cbn [profile credit_score]. lia.
  - split; [|reflexivity]. intros _. repeat split; try assumption; lia.
  - intros H. contradiction.
  - intros _. rewrite length_app. cbn [length]. lia.
Qed.

(** A user who has just registered can log in with the same name and
    password and gets the stored profile of the form; users who could log
    in before still can. *)
Theorem register_then_login (users : list Account) (salt : string)
    (form : registration_form) :
  (forall s p, check_password_hash (generate_password_hash s p) p = true) ->
  (register generate_password_hash users salt form).1 = Registered ->
  let users' := (register generate_password_hash users salt form).2 in
  (exists account,
     login check_password_hash users' (form_username form)
       (form_password form) = Some account
     /\ username account = form_username form
     /\ email account = form_email form
     /\ annual_income (profile account) = form_annual_income form
     /\ credit_score (profile account) = form_credit_score form
     /\ date_of_birth (profile account) = Some (form_date_of_birth form))
  /\ (forall name pass account,
        login check_password_hash users name pass = Some account ->
        login check_password_hash users' name pass = Some account).
Proof.
  intros Hhash. unfold register.
  destruct (first_by_username users (form_username form)) eqn:Fu;
    [discriminate|].
  destruct (first_by_email users (form_email form)); [discriminate|].
  destruct ((form_credit_score form <? 300)%Z
            || (850 <? form_credit_score form)%Z); [discriminate|].
  intros _. cbv zeta. cbn [snd].
  apply first_by_username_None in Fu. split.
  - eexists. unfold login.
    match goal with
    | |- context [users ++ [?a]] =>
        pose proof (first_by_username_new users a Fu) as Hnew
    end.
    cbn [username] in Hnew. rewrite Hnew.
    cbn [password]. rewrite Hhash. repeat split.
  - intros name pass account. unfold login.
    destruct (first_by_username users name) as [a|] eqn:F; [|discriminate].
    rewrite (first_by_username_app _ _ _ _ F). trivial.
Qed.

End AccountExtras.

Lemma register_keeps_accounts_ok_witness :
  let form :=
    {| form_username := "asha"; form_email := "asha@example.org";
       form_password := "secret"; form_annual_income := 480000;
       form_employment_status := "Salaried"; form_credit_score := 710;
       form_date_of_birth := born_1996;
       form_employment_start_date := Some hired_2020;
       form_existing_emis := 0 |} in
  let result := register (fun _ p : string => p) [] "salt" form in
  accounts_ok result.2
  /\ (result.1 = Registered
      <-> ~ In (form_username form) (map username [])
          /\ ~ In (form_email form) (map email [])
          /\ (300 <= form_credit_score form <= 850)%Z)
  /\ (result.1 <> Registered -> result.2 = [])
  /\ (result.1 = Registered -> length result.2 = 1%nat).
Proof.
  apply (register_keeps_accounts_ok (fun _ p : string => p) [] "salt").
  repeat split; constructor.
Defined.

Lemma register_then_login_witness :
  let gen := fun _ p : string => p in
  let form :=
    {| form_username := "asha"; form_email := "asha@example.org";
       form_password := "secret"; form_annual_income := 480000;
       form_employment_status := "Salaried"; form_credit_score := 710;
       form_date_of_birth := born_1996;
       form_employment_start_date := Some hired_2020;
       form_existing_emis := 0 |} in
  let users' := (register gen [] "salt" form).2 in
  (exists account,
     login String.eqb users' (form_username form) (form_password form)
     = Some account
     /\ username account = form_username form
     /\ email account = form_email form
     /\ annual_income (profile account) = form_annual_income form
     /\ credit_score (profile account) = form_credit_score form
     /\ date_of_birth (profile account) = Some (form_date_of_birth form))
  /\ (forall name pass account,
        login String.eqb [] name pass = Some account ->
        login String.eqb users' name pass = Some account).
Proof.
  apply (register_then_login (fun _ p : string => p) String.eqb [] "salt").
  - intros _ p. apply String.eqb_refl.
  - reflexivity.
Defined.

(** ** [dashboard], [emi_calculator] and [payment_history] *)

Section RouteExtras.

Lemma made_by_apply_loan_status (loan : Loan) :
  made_by_apply_loan loan -> status loan <> Approved.
Proof.
  intros (today & user & principal & annual_rate & term & type & H).
  unfold apply_loan in H.
  destruct (LoanValidator.validate_loan_application _ _ _ _ _ _)
    as [[issues m]|e]; [|discriminate].
  cbn [mbind result_bind] in H.
  destruct issues; injection H as <-; discriminate.
Qed.

Lemma status_partition (loans : list Loan) :
  length loans
  = (length (List.filter (has_status Approved) loans)
     + length (List.filter (has_status Pending) loans)
     + length (List.filter (has_status Rejected) loans))%nat.
Proof.
  induction loans as [|l loans IH]; [reflexivity|].
  destruct l as [? ? ? ? [] ?]; simpl; lia.
Qed.

(** The three counters of the dashboard add up to the number of loans; when
    every loan was made by [apply_loan], none counts as approved and the
    approved amount is 0. *)
Theorem dashboard_of_applied_loans (user_loans : list Loan) :
  Forall made_by_apply_loan user_loans ->
  let view := dashboard user_loans in
  total_loans view
  = (approved_loans view + pending_loans view + rejected_loans view)%nat
  /\ approved_loans view = 0%nat
  /\ total_loan_amount view = 0
  /\ total_loans view = (pending_loans view + rejected_loans view)%nat.
Proof.
  intros Hall. cbv zeta. unfold dashboard.
  cbn [total_loans approved_loans pending_loans rejected_loans
       total_loan_amount].
  assert (List.filter (has_status Approved) user_loans = []) as Hnone.
  { induction Hall as [|l loans Hl _ IH]; [reflexivity|].
    pose proof (made_by_apply_loan_status l Hl) as Hs.
    destruct l as [? ? ? ? [] ?]; cbn [List.filter has_status status];
      [exact IH | exfalso; apply Hs; reflexivity | exact IH]. }
  pose proof (status_partition user_loans) as Hpart.
  rewrite Hnone in *. cbn [length map] in *.
  repeat split; try assumption; lia.
Qed.

Lemma dashboard_of_applied_loans_witness :
  let user_loans :=
    match apply_loan new_year_2026 low_income_user 1000 12 12
            "Personal Loan" with
    | Ok loan => [loan]
    | Raise _ => []
    end in
  let view := dashboard user_loans in
  total_loans view
  = (approved_loans view + pending_loans view + rejected_loans view)%nat
  /\ approved_loans view = 0%nat
  /\ total_loan_amount view = 0
  /\ total_loans view = (pending_loans view + rejected_loans view)%nat.
Proof.
  apply dashboard_of_applied_loans.
  destruct (apply_loan new_year_2026 low_income_user 1000 12 12
              "Personal Loan") as [loan|e] eqn:E; constructor; [|constructor].
  exists new_year_2026, low_income_user, 1000, 12, 12%Z, "Personal Loan".
  exact E.
Defined.



(** The calculator page for 1000 at 12% over 3 months: installment 340.02,
    total interest 20.06, total payment 1020.06 and three entries. *)
Example calculator_page :
  (view ← emi_calculator new_year_2026 1000 12 3;
   Ok (Qeq_bool (view_emi view) 340.02,
       Qeq_bool (view_total_interest view) 20.06,
       Qeq_bool (view_total_payment view) 1020.06,
       length (view_schedule view)))
  = Ok (true, true, true, 3%nat).
Proof. vm_compute. reflexivity. Qed.

End RouteExtras.

Section PaymentHistoryExtras.

#[local] Instance by_number_total : Total EMI.by_number.
Proof. intros a b. unfold EMI.by_number. lia. Qed.

Lemma of_loan_nil (table : list EMI.t) (loan : Z) :
  EMI.of_loan table loan = []
  <-> List.filter (fun e => (EMI.loan_id e =? loan)%Z) table = [].
Proof.
  unfold EMI.of_loan. split; intros H.
  - apply Permutation_nil_r. rewrite <- H.
    symmetry. apply merge_sort_Permutation.
  - rewrite H. reflexivity.
Qed.

Lemma filter_own_rows (loan : Z) (schedule : list LoanCalculator.entry) :
  List.filter (fun e => (EMI.loan_id e =? loan)%Z)
    (map (EMI.of_entry loan) schedule)
  = map (EMI.of_entry loan) schedule.
Proof.
  induction schedule as [|e schedule IH]; [reflexivity|].
  cbn [map List.filter EMI.of_entry EMI.loan_id].
  rewrite Z.eqb_refl. f_equal. exact IH.
Qed.

(** The table is written only for an approved loan of the current user
    that has no rows yet. *)
Lemma payment_history_unchanged (now : Datetime.t) (current_user_id : Z)
    (loans : list LoanRow.t) (table : list EMI.t) (loan_id : Z) :
  (forall loan,
     List.find (fun l => (LoanRow.id l =? loan_id)%Z) loans = Some loan ->
     LoanRow.user_id loan = current_user_id ->
     status (LoanRow.loan loan) = Approved ->
     EMI.of_loan table loan_id <> []) ->
  exists page,
    payment_history now current_user_id loans table loan_id
    = Ok (page, table)
    /\ (page = NotFound \/ page = AccessDenied
        \/ exists loan,
             page = PaymentHistory loan (EMI.of_loan table loan_id)).
Proof.
  intros H. unfold payment_history.
  destruct (List.find _ loans) as [loan|];
    [|eexists; split; [reflexivity|now left]].
  destruct (Z.eqb_spec (LoanRow.user_id loan) current_user_id) as [Hu|Hu];
    cbn [negb]; [|eexists; split; [reflexivity|now right; left]].
  specialize (H loan eq_refl Hu).
  destruct (EMI.of_loan table loan_id) as [|e emis] eqn:E.
  - destruct (status (LoanRow.loan loan)) eqn:S;
      [ eexists; split; [reflexivity|right; right; now exists loan]
      | exfalso; now apply H
      | eexists; split; [reflexivity|right; right; now exists loan] ].
  - eexists; split; [reflexivity|right; right; now exists loan].
Qed.

(** Loans made by [apply_loan] never get EMI rows: for them
    [payment_history] leaves the EMI table as it is, whoever asks and
    whatever the table holds. *)
Theorem applied_loans_get_no_emis (now : Datetime.t) (current_user_id : Z)
    (loans : list LoanRow.t) (table : list EMI.t) (loan_id : Z) :
  Forall (fun l => made_by_apply_loan (LoanRow.loan l)) loans ->
  exists page,
    payment_history now current_user_id loans table loan_id
    = Ok (page, table)
    /\ (page = NotFound \/ page = AccessDenied
        \/ exists loan,
             page = PaymentHistory loan (EMI.of_loan table loan_id)).
Proof.
  intros Hall. apply payment_history_unchanged.
  intros loan Hf _ Hs. exfalso.
  apply find_some in Hf. destruct Hf as [Hin _].
  rewrite Forall_forall in Hall. apply list_elem_of_In in Hin.
  apply (made_by_apply_loan_status _ (Hall loan Hin)). exact Hs.
Qed.

Lemma applied_loans_get_no_emis_witness :
  let loans :=
    match apply_loan new_year_2026 low_income_user 1000 12 12
            "Personal Loan" with
    | Ok loan =>
        [ {| LoanRow.id := 1; LoanRow.user_id := 7; LoanRow.loan := loan;
             LoanRow.start_date := None |} ]
    | Raise _ => []
    end in
  exists page,
    payment_history new_year_2026 7 loans [] 1 = Ok (page, [])
    /\ (page = NotFound \/ page = AccessDenied
        \/ exists loan, page = PaymentHistory loan (EMI.of_loan [] 1)).
Proof.
  apply applied_loans_get_no_emis.
  destruct (apply_loan new_year_2026 low_income_user 1000 12 12
              "Personal Loan") as [loan|e] eqn:E; constructor; [|constructor].
  exists new_year_2026, low_income_user, 1000, 12, 12%Z, "Personal Loan".
  exact E.
Defined.

(** For an approved loan of the current user that has no rows,
    [payment_history] builds the schedule.  When that returns, one row per
    entry is appended, numbered 1..termMonths, each for this loan, pending,
    unpaid and without late fee, and the page shows exactly these rows
    sorted by number; with at least one month, asking again changes nothing
    and shows the same rows.  When the schedule raises, so does
    [payment_history]. *)
Theorem payment_history_generates_once (now later : Datetime.t)
    (current_user_id : Z) (loans : list LoanRow.t) (table : list EMI.t)
    (loan_id : Z) (loan : LoanRow.t) :
  List.find (fun l => (LoanRow.id l =? loan_id)%Z) loans = Some loan ->
  LoanRow.user_id loan = current_user_id ->
  status (LoanRow.loan loan) = Approved ->
  (forall e, In e table -> EMI.loan_id e <> loan_id) ->
  match
    LoanCalculator.generate_emi_schedule (loan_amount (LoanRow.loan loan))
      (interest_rate (LoanRow.loan loan)) (loan_term (LoanRow.loan loan))
      (default now (LoanRow.start_date loan))
  with
  | Raise e =>
      payment_history now current_user_id loans table loan_id = Raise e
  | Ok schedule =>
      let rows := map (EMI.of_entry loan_id) schedule in
      let shown := merge_sort EMI.by_number rows in
      payment_history now current_user_id loans table loan_id
      = Ok (PaymentHistory loan shown, table ++ rows)
      /\ map EMI.emi_number rows = seqZ 1 (loan_term (LoanRow.loan loan))
      /\ Forall
           (fun r =>
              EMI.loan_id r = loan_id /\ EMI.status r = EmiPending
              /\ EMI.paid_date r = None /\ EMI.late_fee r = 0)
           rows
      /\ shown ≡ₚ rows
      /\ Sorted EMI.by_number shown
      /\ ((1 <= loan_term (LoanRow.loan loan))%Z ->
          payment_history later current_user_id loans (table ++ rows) loan_id
          = Ok (PaymentHistory loan shown, table ++ rows))
  end.
Proof.
  intros Hf Hu Hs Hfree.
  pose proof (ScheduleFacts.generate_emi_schedule_unfold
                (loan_amount (LoanRow.loan loan))
                (interest_rate (LoanRow.loan loan))
                (loan_term (LoanRow.loan loan))
                (default now (LoanRow.start_date loan))) as Hg.
  assert (List.filter (fun e => (EMI.loan_id e =? loan_id)%Z) table = [])
    as Hnone.
  { clear -Hfree. induction table as [|e table IH]; [reflexivity|].
    cbn [List.filter].
    destruct (Z.eqb_spec (EMI.loan_id e) loan_id) as [He|_].
    - exfalso. apply (Hfree e); [now left|exact He].
    - apply IH. intros e' He'. apply Hfree. now right. }
  destruct (LoanCalculator.generate_emi_schedule _ _ _ _)
    as [schedule|e] eqn:Hsched.
  2:{ unfold payment_history. rewrite Hf, Hu, Z.eqb_refl. cbn [negb].
      rewrite (proj2 (of_loan_nil table loan_id) Hnone), Hs, Hsched.
      reflexivity. }
  assert (map LoanCalculator.emi_number schedule
          = seqZ 1 (loan_term (LoanRow.loan loan))) as Hnum.
  { destruct (LoanCalculator.calculate_emi _ _ _) as [emi|e];
      [|discriminate Hg].
    destruct (ScheduleTerms.due_dates_ok _ _); [|discriminate Hg].
    injection Hg as ->. apply ScheduleFacts.schedule_of_numbers. }
  cbv zeta.
  set (rows := map (EMI.of_entry loan_id) schedule).
  assert (EMI.of_loan (table ++ rows) loan_id = merge_sort EMI.by_number rows)
    as Hshown.
  { unfold EMI.of_loan. rewrite List.filter_app, Hnone. cbn [app].
    unfold rows. rewrite filter_own_rows. reflexivity. }
  split; [|split; [|split; [|split; [|split]]]].
  - unfold payment_history. rewrite Hf, Hu, Z.eqb_refl. cbn [negb].
    rewrite (proj2 (of_loan_nil table loan_id) Hnone), Hs, Hsched.
    cbn [mbind result_bind]. fold rows. rewrite Hshown. reflexivity.
  - unfold rows. rewrite map_map. cbn [EMI.of_entry EMI.emi_number].
    exact Hnum.
  - unfold rows. apply Forall_forall. intros r Hin.
    apply list_elem_of_In, in_map_iff in Hin.
    destruct Hin as (e & <- & _). repeat split.
  - apply merge_sort_Permutation.
  - apply Sorted_merge_sort. apply _.
  - intros Hn.
    assert (merge_sort EMI.by_number rows <> []) as Hne.
    { intros H.
      assert (length rows = 0%nat) as Hz.
      { rewrite <- (Permutation_length
                      (merge_sort_Permutation EMI.by_number rows)), H.
        reflexivity. }
      unfold rows in Hz.
      rewrite length_map, <- (length_map LoanCalculator.emi_number), Hnum,
        length_seqZ in Hz. lia. }
    unfold payment_history. rewrite Hf, Hu, Z.eqb_refl. cbn [negb].
    rewrite Hshown.
    destruct (merge_sort EMI.by_number rows) as [|r rest];
      [contradiction|reflexivity].
Qed.

Lemma payment_history_generates_once_witness :
  let approved :=
    {| LoanRow.id := 1; LoanRow.user_id := 7;
       LoanRow.loan :=
         {| loan_amount := 1000; interest_rate := 12; loan_term := 3;
            loan_type := "Car Loan"; status := Approved;
            rejection_reason := None |};
       LoanRow.start_date := Some new_year_2026 |} in
  match
    LoanCalculator.generate_emi_schedule
      (loan_amount (LoanRow.loan approved))
      (interest_rate (LoanRow.loan approved))
      (loan_term (LoanRow.loan approved))
      (default new_year_2026 (LoanRow.start_date approved))
  with
  | Raise e => payment_history new_year_2026 7 [approved] [] 1 = Raise e
  | Ok schedule =>
      let rows := map (EMI.of_entry 1) schedule in
      let shown := merge_sort EMI.by_number rows in
      payment_history new_year_2026 7 [approved] [] 1
      = Ok (PaymentHistory approved shown, [] ++ rows)
      /\ map EMI.emi_number rows = seqZ 1 (loan_term (LoanRow.loan approved))
      /\ Forall
           (fun r =>
              EMI.loan_id r = 1%Z /\ EMI.status r = EmiPending
              /\ EMI.paid_date r = None /\ EMI.late_fee r = 0)
           rows
      /\ shown ≡ₚ rows
      /\ Sorted EMI.by_number shown
      /\ ((1 <= loan_term (LoanRow.loan approved))%Z ->
          payment_history new_year_2026 7 [approved] ([] ++ rows) 1
          = Ok (PaymentHistory approved shown, [] ++ rows))
  end.
Proof.
  intros approved.
  apply (payment_history_generates_once new_year_2026 new_year_2026 7
           [approved] [] 1 approved);
    first [reflexivity | intros e []].
Defined.

(** The rows of that loan: three, numbered 1, 2, 3, all pending. *)
Example payment_history_of_3_months :
  ('(page, table) ←
     payment_history new_year_2026 7
       [ {| LoanRow.id := 1; LoanRow.user_id := 7;
            LoanRow.loan :=
              {| loan_amount := 1000; interest_rate := 12; loan_term := 3;
                 loan_type := "Car Loan"; status := Approved;
                 rejection_reason := None |};
            LoanRow.start_date := Some new_year_2026 |} ] [] 1;
   Ok (map (fun r => (EMI.emi_number r, EMI.status r)) table))
  = Ok [(1%Z, EmiPending); (2%Z, EmiPending); (3%Z, EmiPending)].
Proof. vm_compute. reflexivity. Qed.

End PaymentHistoryExtras.
